(** * RAG chatbot: configuration, document loader, retrieval engine, front ends

    A shallow embedding of [config.py], [document_loader.py], [rag_engine.py]
    and the upload paths of [api.py] and [app.py].

    The Python objects become records, the methods become computations in a
    state-and-exception monad, and every call into a collaborator that the
    repository does not implement (the vector database, the LangChain
    constructors and chains, the file loaders, the temporary-file functions)
    is an event answered by an arbitrary [Backend]: the answer is either a
    return value or a raised exception, together with the next state of the
    outside world. *)

From Stdlib Require Import Ascii String.
From stdpp Require Import base option list strings gmap pretty.

(** ** Python values *)

(** Exceptions.  Only subclasses of [Exception] are modelled; interpreter
    signals such as [KeyboardInterrupt] are outside the model, so a bare
    [except:] and [except Exception] catch the same things here. *)
Inductive ExcClass : Type :=
| PlainException                       (* raise Exception(...)            *)
| ValueError
| AttributeError
| HTTPException (status_code : nat)    (* fastapi.HTTPException           *)
| OtherException (name : string).      (* anything a collaborator raises  *)

(** [exc_str e] is what [str(e)] yields (for an [HTTPException], its
    [detail]). *)
Record PyExc : Type := mkExc { exc_class : ExcClass; exc_str : string }.

Inductive Outcome (A : Type) : Type :=
| Returns (a : A)
| Raises (e : PyExc).
Arguments Returns {A} a.
Arguments Raises {A} e.

(** A LangChain [Document]. *)
Record Document : Type := mkDocument {
  page_content : string;
  metadata : list (string * string)
}.

(** ** config.py *)
Module config.
Definition OLLAMA_BASE_URL : string := "http://localhost:11434".
Definition OLLAMA_MODEL : string := "llama3.2:latest".
Definition EMBEDDING_MODEL : string := "all-MiniLM-L6-v2".
Definition CHROMA_PERSIST_DIR : string := "./chroma_db".
Definition COLLECTION_NAME : string := "document_qa".
Definition CHUNK_SIZE : nat := 500.
Definition CHUNK_OVERLAP : nat := 50.
Definition TOP_K_RESULTS : nat := 3.
Definition SUPPORTED_EXTENSIONS : list string := [".pdf"; ".txt"; ".docx"; ".md"].
End config.

(** ** The objects the engine holds *)

Record OllamaEmbeddings : Type := mkEmbeddings {
  emb_model : string;
  emb_base_url : string
}.

Record OllamaLLM : Type := mkLLM {
  llm_model : string;
  llm_base_url : string;
  llm_temperature : nat                  (* 0 for temperature=0.0 *)
}.

Record PersistentClient : Type := mkClient { client_path : string }.

(** A [Chroma] vector-store object: what it was constructed with. *)
Record Chroma : Type := mkChroma {
  collection_name : string;
  embedding_function : OllamaEmbeddings;
  persist_directory : string
}.

(** [vectorstore.as_retriever(search_kwargs={"k": k})] *)
Record Retriever : Type := mkRetriever {
  retriever_store : Chroma;
  search_k : nat
}.

Record PromptTemplate : Type := mkPrompt {
  template : string;
  input_variables : list string
}.

(** The arguments of [RetrievalQA.from_chain_type]. *)
Record RetrievalQA : Type := mkRetrievalQA {
  qa_llm : OllamaLLM;
  chain_type : string;
  retriever : Retriever;
  chain_prompt : PromptTemplate;
  return_source_documents : bool
}.

(** The engine object.  [vectorstore] and [qa_chain] hold [None] or an
    object.  A [RetrievalQA] object defines neither [__bool__] nor
    [__len__], so [if not self.qa_chain] is a test for [None].  A [Chroma]
    object defines [__len__] as the count of its collection, so
    [if self.vectorstore] counts the collection and is false for a store
    that holds nothing ([vectorstore_is_true] below). *)
Record RAGEngine : Type := mkEngine {
  embeddings : OllamaEmbeddings;
  chroma_client : PersistentClient;
  llm : OllamaLLM;
  vectorstore : option Chroma;
  qa_chain : option RetrievalQA
}.

(** The dictionary [query] returns. *)
Record QueryResult : Type := mkResult {
  answer : string;
  sources : list Document
}.

(** The four loader classes [load_document] chooses between. *)
Inductive LoaderKind : Type :=
| PyPDFLoader | TextLoader | Docx2txtLoader | UnstructuredMarkdownLoader.

(** ** Calls into collaborators

    [Ext R] is a call whose return value has type [R]. *)
Inductive Ext : Type -> Type :=
| Chroma_from_documents (documents : list Document) (embedding : OllamaEmbeddings)
    (coll persist_dir : string) : Ext unit
| Chroma_open (coll : string) (embedding : OllamaEmbeddings) (persist_dir : string) : Ext unit
| RetrievalQA_from_chain_type (chain : RetrievalQA) : Ext unit
| chain_invoke (chain : RetrievalQA) (question : string) : Ext (string * list Document)
| collection_count (vs : Chroma) : Ext nat
| delete_collection (vs : Chroma) (name : string) : Ext unit
| loader_load (kind : LoaderKind) (file_path : string) : Ext (list Document)
| splitter_split_documents (chunk_size chunk_overlap : nat) (documents : list Document)
    : Ext (list Document)
| NamedTemporaryFile (suffix : string) : Ext string
| write_upload (path : string) (data : string) : Ext unit
| os_unlink (path : string) : Ext unit.

(** One entry of the log of calls made. *)
Definition Call : Type := { R : Type & Ext R }.
Definition logged {R : Type} (e : Ext R) : Call := existT R e.

(** A backend answers every call from the current state of the outside
    world [W], and gives the next one. *)
Definition Backend (W : Type) : Type := forall R : Type, Ext R -> W -> Outcome R * W.

(** ** Program state *)

(** Messages the interactive UI shows: [st.success], with the two numbers
    its text is formatted from, and [st.error], with the [str(e)] its text
    ends with. *)
Inductive UiMessage : Type :=
| st_success (n_files n_chunks : nat)
| st_error (str_e : string).

Record State (W : Type) : Type := mkState {
  self : RAGEngine;                (* the engine object                      *)
  world : W;                       (* the collaborators                      *)
  calls : list Call;               (* calls made so far, oldest first        *)
  stdout : list string;            (* lines printed                          *)
  files : gset string;             (* staged temporary files that exist      *)
  temp_files : list string;        (* the upload handler's local list        *)
  documents_loaded : bool;         (* st.session_state.documents_loaded      *)
  shown : list UiMessage           (* what the UI displayed                   *)
}.
Arguments mkState {W}.
Arguments self {W}.
Arguments world {W}.
Arguments calls {W}.
Arguments stdout {W}.
Arguments files {W}.
Arguments temp_files {W}.
Arguments documents_loaded {W}.
Arguments shown {W}.

Definition set_self {W} (e : RAGEngine) (s : State W) : State W :=
  mkState e (world s) (calls s) (stdout s) (files s) (temp_files s) (documents_loaded s) (shown s).
Definition set_world {W} (w : W) (s : State W) : State W :=
  mkState (self s) w (calls s) (stdout s) (files s) (temp_files s) (documents_loaded s) (shown s).
Definition set_calls {W} (c : list Call) (s : State W) : State W :=
  mkState (self s) (world s) c (stdout s) (files s) (temp_files s) (documents_loaded s) (shown s).
Definition set_stdout {W} (o : list string) (s : State W) : State W :=
  mkState (self s) (world s) (calls s) o (files s) (temp_files s) (documents_loaded s) (shown s).
Definition set_files {W} (f : gset string) (s : State W) : State W :=
  mkState (self s) (world s) (calls s) (stdout s) f (temp_files s) (documents_loaded s) (shown s).
Definition set_temp_files {W} (t : list string) (s : State W) : State W :=
  mkState (self s) (world s) (calls s) (stdout s) (files s) t (documents_loaded s) (shown s).
Definition set_documents_loaded {W} (b : bool) (s : State W) : State W :=
  mkState (self s) (world s) (calls s) (stdout s) (files s) (temp_files s) b (shown s).
Definition set_shown {W} (m : list UiMessage) (s : State W) : State W :=
  mkState (self s) (world s) (calls s) (stdout s) (files s) (temp_files s) (documents_loaded s) m.

Definition with_vectorstore (v : option Chroma) (e : RAGEngine) : RAGEngine :=
  mkEngine (embeddings e) (chroma_client e) (llm e) v (qa_chain e).
Definition with_qa_chain (q : option RetrievalQA) (e : RAGEngine) : RAGEngine :=
  mkEngine (embeddings e) (chroma_client e) (llm e) (vectorstore e) q.

(** ** The monad: state plus exceptions *)

Definition M (W : Type) (A : Type) : Type := State W -> Outcome A * State W.

#[global] Instance M_ret {W} : MRet (M W) := fun A a s => (Returns a, s).
#[global] Instance M_bind {W} : MBind (M W) := fun A B f m s =>
  match m s with
  | (Returns a, s') => f a s'
  | (Raises e, s') => (Raises e, s')
  end.

Definition raise {W A} (e : PyExc) : M W A := fun s => (Raises e, s).

(** [try: body  except Exception as e: handler e] *)
Definition try_except {W A} (body : M W A) (handler : PyExc -> M W A) : M W A := fun s =>
  match body s with
  | (Returns a, s') => (Returns a, s')
  | (Raises e, s') => handler e s'
  end.

(** [try: body  finally: fin].  The [finally] block runs on every exit; an
    exception it raises replaces the body's outcome. *)
Definition try_finally {W A} (body : M W A) (fin : M W unit) : M W A := fun s =>
  let '(r, s') := body s in
  match fin s' with
  | (Returns _, s'') => (r, s'')
  | (Raises e, s'') => (Raises e, s'')
  end.

Definition get {W} : M W (State W) := fun s => (Returns s, s).
Definition modify {W} (f : State W -> State W) : M W unit := fun s => (Returns tt, f s).

(** [for x in xs: body x] *)
Fixpoint for_each {W A} (xs : list A) (body : A -> M W unit) : M W unit :=
  match xs with
  | [] => mret tt
  | x :: rest => body x ;; for_each rest body
  end.

(** ** String helpers: [os.path.splitext(p)[1]] and [str.lower] *)

(** The text after the last occurrence of [c] in [p], if [c] occurs. *)
Fixpoint after_last (c : ascii) (p : string) : option string :=
  match p with
  | EmptyString => None
  | String a rest =>
      match after_last c rest with
      | Some t => Some t
      | None => if Ascii.eqb a c then Some rest else None
      end
  end.

Fixpoint skip_leading_dots (p : string) : string :=
  match p with
  | String "."%char rest => skip_leading_dots rest
  | _ => p
  end.

(** [os.path.splitext(p)[1]] on a POSIX path: the extension starts at the
    last dot of the final path component, leading dots of that component
    not counting. *)
Definition splitext_ext (p : string) : string :=
  let base := default p (after_last "/"%char p) in
  match after_last "."%char (skip_leading_dots base) with
  | Some t => String "."%char t
  | None => EmptyString
  end.

Definition lower_ascii (c : ascii) : ascii :=
  let n := nat_of_ascii c in
  if (65 <=? n) && (n <=? 90) then ascii_of_nat (n + 32) else c.

(** [s.lower()].  A string is its UTF-8 bytes; the 26 ASCII capitals are
    lowered and every other byte is kept, which is what [str.lower] does on
    ASCII text (it also lowers capitals outside ASCII, such as [É]; none of
    the supported extensions can come from one of those). *)
Fixpoint lower (s : string) : string :=
  match s with
  | EmptyString => EmptyString
  | String c rest => String (lower_ascii c) (lower rest)
  end.

Definition nl : string := String "010"%char EmptyString.
Definition dq : string := String "034"%char EmptyString.

(** The state once call [e] has been answered with next world [w]. *)
Definition after_call {W R : Type} (e : Ext R) (w : W) (s : State W) : State W :=
  set_calls (calls s ++ [logged e]) (set_world w s).

(** The [Chroma] object that [Chroma(...)] and [Chroma.from_documents(...)]
    build for engine [e]: the configured collection and directory, and the
    engine's own embeddings object. *)
Definition new_store (e : RAGEngine) : Chroma :=
  mkChroma config.COLLECTION_NAME (embeddings e) config.CHROMA_PERSIST_DIR.

Section Program.
Context {W : Type} (B : Backend W).

(** Make a call: the backend answers, the world moves on, the call is
    logged. *)
Definition call {R : Type} (e : Ext R) : M W R := fun s =>
  let '(r, w) := B R e (world s) in (r, after_call e w s).

Definition print (line : string) : M W unit :=
  modify (fun s => set_stdout (stdout s ++ [line]) s).

(** ** document_loader.py *)

(** [load_document]: the [raise ValueError] sits inside the [try], so the
    handler below it catches it like any loader failure. *)
Definition load_document (file_path : string) : M W (list Document) :=
  let ext := lower (splitext_ext file_path) in
  try_except
    (loader ←
       (if decide (ext = ".pdf") then mret PyPDFLoader
        else if decide (ext = ".txt") then mret TextLoader
        else if decide (ext = ".docx") then mret Docx2txtLoader
        else if decide (ext = ".md") then mret UnstructuredMarkdownLoader
        else raise (mkExc ValueError ("Unsupported file type: " +:+ ext)));
     call (loader_load loader file_path))
    (fun e => raise (mkExc PlainException
                       ("Error loading " +:+ file_path +:+ ": " +:+ exc_str e))).

Definition split_documents (documents : list Document) : M W (list Document) :=
  call (splitter_split_documents config.CHUNK_SIZE config.CHUNK_OVERLAP documents).

(** The loop of [process_documents], [all_docs] being the accumulator. *)
Fixpoint load_all (file_paths : list string) (all_docs : list Document)
  : M W (list Document) :=
  match file_paths with
  | [] => mret all_docs
  | file_path :: rest =>
      docs ← load_document file_path;
      load_all rest (all_docs ++ docs)
  end.

Definition process_documents (file_paths : list string) : M W (list Document) :=
  all_docs ← load_all file_paths [];
  split_documents all_docs.

(** ** rag_engine.py *)

Definition prompt_template : string :=
  "Use the following context to answer the question. If you cannot answer based on the context, say "
  +:+ dq +:+ "I don't have enough information to answer this question." +:+ dq
  +:+ nl +:+ nl +:+ "Context: {context}"
  +:+ nl +:+ nl +:+ "Question: {question}"
  +:+ nl +:+ nl +:+ "Answer:".

Definition PROMPT : PromptTemplate := mkPrompt prompt_template ["context"; "question"].

Definition set_vectorstore (v : option Chroma) : M W unit :=
  modify (fun s => set_self (with_vectorstore v (self s)) s).
Definition set_qa_chain (q : option RetrievalQA) : M W unit :=
  modify (fun s => set_self (with_qa_chain q (self s)) s).

(** The chain [_setup_qa_chain] asks for: the engine's LLM, the "stuff"
    chain type, a retriever over [vs] with [k = TOP_K_RESULTS], the prompt. *)
Definition new_chain (e : RAGEngine) (vs : Chroma) : RetrievalQA :=
  mkRetrievalQA (llm e) "stuff" (mkRetriever vs config.TOP_K_RESULTS) PROMPT true.

Definition _setup_qa_chain : M W unit :=
  s ← get;
  match vectorstore (self s) with
  | None =>
      raise (mkExc AttributeError "'NoneType' object has no attribute 'as_retriever'")
  | Some vs =>
      call (RetrievalQA_from_chain_type (new_chain (self s) vs));;
      set_qa_chain (Some (new_chain (self s) vs))
  end.

Definition create_vectorstore (documents : list Document) : M W nat :=
  s ← get;
  call (Chroma_from_documents documents (embeddings (self s))
          config.COLLECTION_NAME config.CHROMA_PERSIST_DIR);;
  set_vectorstore (Some (new_store (self s)));;
  _setup_qa_chain;;
  mret (length documents).

Definition load_existing_vectorstore : M W bool :=
  try_except
    (s ← get;
     call (Chroma_open config.COLLECTION_NAME (embeddings (self s))
             config.CHROMA_PERSIST_DIR);;
     set_vectorstore (Some (new_store (self s)));;
     _setup_qa_chain;;
     mret true)
    (fun _ => mret false).

Definition no_documents_answer : string :=
  "No documents loaded. Please upload documents first.".

Definition query (question : string) : M W QueryResult :=
  s ← get;
  match qa_chain (self s) with
  | None => mret (mkResult no_documents_answer [])
  | Some chain =>
      try_except
        (result ← call (chain_invoke chain question);
         mret (mkResult (fst result) (snd result)))
        (fun e => mret (mkResult ("Error: " +:+ exc_str e) []))
  end.

(** [bool(self.vectorstore)]: [None] is false; for a [Chroma] object Python
    calls its [__len__], which returns [self._collection.count()], and the
    object is true when that count is not 0.  An exception of the count
    leaves the test. *)
Definition vectorstore_is_true : M W bool :=
  s ← get;
  match vectorstore (self s) with
  | None => mret false
  | Some vs => n ← call (collection_count vs); mret (negb (n =? 0))
  end.

(** [get_stats] returns the dictionary [{'total_chunks': n}]; [n] here.
    The test [if not self.vectorstore] stands before the [try]. *)
Definition get_stats : M W nat :=
  truth ← vectorstore_is_true;
  if truth : bool then
    try_except
      (s ← get;
       match vectorstore (self s) with
       | Some vs => call (collection_count vs)
       | None => raise (mkExc AttributeError
                          "'NoneType' object has no attribute '_collection'")
       end)
      (fun _ => mret 0)
  else mret 0.

(** The test [if self.vectorstore] stands inside the [try]. *)
Definition clear_database : M W bool :=
  try_except
    (truth ← vectorstore_is_true;
     (if truth : bool then
        s ← get;
        match vectorstore (self s) with
        | Some vs =>
            call (delete_collection vs config.COLLECTION_NAME);;
            set_vectorstore None;;
            set_qa_chain None
        | None => raise (mkExc AttributeError
                           "'NoneType' object has no attribute '_client'")
        end
      else mret tt);;
     mret true)
    (fun e => print ("Error clearing database: " +:+ exc_str e);; mret false).

End Program.

(** [RAGEngine.__init__]: the three handles are built from the
    configuration and the literal embedding-model name; no store, no chain. *)
Definition RAGEngine_init : RAGEngine :=
  mkEngine (mkEmbeddings "nomic-embed-text" config.OLLAMA_BASE_URL)
           (mkClient config.CHROMA_PERSIST_DIR)
           (mkLLM config.OLLAMA_MODEL config.OLLAMA_BASE_URL 0)
           None None.

Definition initial_state {W : Type} (w : W) : State W :=
  mkState RAGEngine_init w [] [] ∅ [] false [].

(** ** The front ends: api.py and app.py *)

Record UploadFile : Type := mkUpload {
  filename : string;
  file : string                           (* the uploaded bytes *)
}.

Record UploadResponse : Type := mkUploadResponse {
  message : string;
  total_chunks : nat;
  files_processed : nat
}.

(** [str(xs)] of a Python list of strings. *)
Definition repr_list (xs : list string) : string :=
  "[" +:+ String.concat ", " (map (fun x => "'" +:+ x +:+ "'") xs) +:+ "]".

Section FrontEnds.
Context {W : Type} (B : Backend W).

(** [tempfile.NamedTemporaryFile(delete=False, suffix=...)]: when the call
    returns, a file of the returned name exists and stays after closing. *)
Definition tempfile_NamedTemporaryFile (suffix : string) : M W string :=
  name ← call B (NamedTemporaryFile suffix);
  modify (fun s => set_files ({[ name ]} ∪ files s) s);;
  mret name.

(** [os.unlink(path)]: when the call returns, the file is gone. *)
Definition unlink (path : string) : M W unit :=
  call B (os_unlink path);;
  modify (fun s => set_files (files s ∖ {[ path ]}) s).

Definition temp_files_append (name : string) : M W unit :=
  modify (fun s => set_temp_files (temp_files s ++ [name]) s).

(** [try: os.unlink(path)  except: pass] *)
Definition unlink_quietly (path : string) : M W unit :=
  try_except (unlink path) (fun _ => mret tt).

(** The cleanup loop both front ends use:
    [for p in temp_files: try: os.unlink(p) except: pass]. *)
Definition cleanup_temp_files : M W unit :=
  s ← get;
  for_each (temp_files s) unlink_quietly.

(** api.py, lines 33-37: build the engine, then try to load a store. *)
Definition startup : M W bool :=
  modify (set_self RAGEngine_init);;
  load_existing_vectorstore B.

(** api.py, the body of the [for] loop of [upload_documents]. *)
Definition api_stage (uploaded_file : UploadFile) : M W unit :=
  let file_ext := lower (splitext_ext (filename uploaded_file)) in
  if bool_decide (file_ext ∈ config.SUPPORTED_EXTENSIONS) then
    name ← tempfile_NamedTemporaryFile file_ext;
    call B (write_upload name (file uploaded_file));;
    temp_files_append name
  else
    raise (mkExc (HTTPException 400)
             ("Unsupported file type: " +:+ file_ext +:+ ". Supported: "
              +:+ repr_list config.SUPPORTED_EXTENSIONS)).

Definition upload_documents (uploads : list UploadFile) : M W UploadResponse :=
  match uploads with
  | [] => raise (mkExc (HTTPException 400) "No files provided")
  | _ =>
      modify (set_temp_files []);;
      try_finally
        (try_except
           (for_each uploads api_stage;;
            s ← get;
            chunks ← process_documents B (temp_files s);
            match chunks with
            | [] => raise (mkExc (HTTPException 400) "No content extracted from documents")
            | _ =>
                n ← create_vectorstore B chunks;
                mret (mkUploadResponse "Documents processed successfully" n (length uploads))
            end)
           (fun e =>
              match exc_class e with
              | HTTPException _ => raise e
              | _ => raise (mkExc (HTTPException 500)
                              ("Error processing documents: " +:+ exc_str e))
              end))
        cleanup_temp_files
  end.

(** app.py, the body of the staging loop of the "Process Documents"
    handler; the suffix is not lowercased there. *)
Definition app_stage (uploaded_file : UploadFile) : M W unit :=
  name ← tempfile_NamedTemporaryFile (splitext_ext (filename uploaded_file));
  call B (write_upload name (file uploaded_file));;
  temp_files_append name.

Definition st_show (m : UiMessage) : M W unit :=
  modify (fun s => set_shown (shown s ++ [m]) s).

(** app.py, the "Process Documents" button: what runs when it is pressed
    with [uploaded_files] non-empty.  The cleanup loop is a statement of the
    [try] body, after [create_vectorstore]; the handler only shows the
    error. *)
Definition process_documents_handler (uploaded_files : list UploadFile) : M W unit :=
  try_except
    (modify (set_temp_files []);;
     for_each uploaded_files app_stage;;
     s ← get;
     chunks ← process_documents B (temp_files s);
     num_chunks ← create_vectorstore B chunks;
     cleanup_temp_files;;
     modify (set_documents_loaded true);;
     st_show (st_success (length uploaded_files) num_chunks))
    (fun e => st_show (st_error (exc_str e))).

End FrontEnds.

(** ** The other endpoints of api.py *)

(** ASCII whitespace, as [str.strip] and [str.isspace] see it: tab to
    carriage return, the four separators 0x1c-0x1f, and space.  (Python
    also strips whitespace outside ASCII; the model's blank test is exact
    on ASCII text.) *)
Definition is_space (c : ascii) : bool :=
  let n := nat_of_ascii c in
  ((9 <=? n) && (n <=? 13)) || ((28 <=? n) && (n <=? 32)).

Fixpoint lstrip_chars (cs : list ascii) : list ascii :=
  match cs with
  | c :: rest => if is_space c then lstrip_chars rest else cs
  | [] => []
  end.

(** [s.strip()] *)
Definition strip (s : string) : string :=
  string_of_list_ascii
    (rev (lstrip_chars (rev (lstrip_chars (list_ascii_of_string s))))).

(** [not s], for a Python string. *)
Definition str_is_empty (s : string) : bool :=
  match s with
  | EmptyString => true
  | String _ _ => false
  end.

(** One element of the [sources] list of a query response. *)
Record SourceDict : Type := mkSource {
  source_content : string;
  source_metadata : list (string * string)
}.

Record QueryResponse : Type := mkQueryResponse {
  response_answer : string;
  response_sources : list SourceDict
}.

Record StatsResponse : Type := mkStatsResponse {
  stats_total_chunks : nat;
  stats_collection_name : string;
  stats_ollama_model : string;
  stats_embedding_model : string
}.

Record HealthResponse : Type := mkHealthResponse {
  health_status : string;
  ollama_connected : bool;
  vectorstore_loaded : bool
}.

Section Endpoints.
Context {W : Type} (B : Backend W).

(** [str(e)] of an [HTTPException] is the web framework's business: it is
    the parameter [http_str], applied to the status code and the detail. *)
Context (http_str : nat -> string -> string).

(** [rag_engine.llm.invoke(prompt)], the one call of the health check; it is
    answered from the world like the calls of a [Backend]. *)
Context (llm_invoke : OllamaLLM -> string -> W -> Outcome string * W).

(** [str(e)] *)
Definition py_str (e : PyExc) : string :=
  match exc_class e with
  | HTTPException status_code => http_str status_code (exc_str e)
  | _ => exc_str e
  end.

(** The call [rag_engine.llm.invoke("test")], its result dropped. *)
Definition llm_invoke_test : M W unit := fun s =>
  let '(r, w) := llm_invoke (llm (self s)) "test" (world s) in
  (match r with Returns _ => Returns tt | Raises x => Raises x end, set_world w s).

(** [GET /health] *)
Definition health_check : M W HealthResponse :=
  connected ← try_except (llm_invoke_test;; mret true) (fun _ => mret false);
  s ← get;
  mret (mkHealthResponse (if connected : bool then "healthy" else "degraded") connected
          (bool_decide (is_Some (vectorstore (self s))))).

(** [POST /query] *)
Definition query_documents (question : string) : M W QueryResponse :=
  if str_is_empty question || str_is_empty (strip question) then
    raise (mkExc (HTTPException 400) "Question cannot be empty")
  else
    try_except
      (result ← query B question;
       mret (mkQueryResponse (answer result)
               (map (fun doc => mkSource (page_content doc) (metadata doc))
                    (sources result))))
      (fun e => raise (mkExc (HTTPException 500) ("Error processing query: " +:+ py_str e))).

(** [GET /stats]; the embedding model is a literal there too. *)
Definition get_statistics : M W StatsResponse :=
  n ← get_stats B;
  mret (mkStatsResponse n config.COLLECTION_NAME config.OLLAMA_MODEL "nomic-embed-text").

(** [DELETE /clear], api.py's [clear_database].  The [raise] of the
    [else] branch is inside the [try]. *)
Definition api_clear_database : M W string :=
  try_except
    (success ← clear_database B;
     if success : bool then mret "Database cleared successfully"
     else raise (mkExc (HTTPException 500) "Failed to clear database"))
    (fun e => raise (mkExc (HTTPException 500) ("Error clearing database: " +:+ py_str e))).

End Endpoints.

(** ** The other blocks of app.py *)

Record ChatMessage : Type := mkMessage {
  role : string;
  content : string
}.

(** What the chat block renders for one question: the answer, and the
    "Sources" panel when there are sources. *)
Record ChatView : Type := mkChatView {
  view_answer : string;
  view_sources : option (list string)
}.

(** A byte [10xxxxxx] continues a UTF-8 sequence; every other byte starts a
    character. *)
Definition is_continuation (c : ascii) : bool :=
  let n := nat_of_ascii c in (128 <=? n) && (n <? 192).

(** [len(s)]: the number of characters of a string given by its UTF-8
    bytes. *)
Fixpoint str_len (s : string) : nat :=
  match s with
  | EmptyString => 0
  | String c rest => if is_continuation c then str_len rest else S (str_len rest)
  end.

(** [s[:n]]: the first [n] characters, each with all its bytes. *)
Fixpoint str_take (n : nat) (s : string) : string :=
  match s with
  | EmptyString => EmptyString
  | String c rest =>
      if is_continuation c then String c (str_take n rest)
      else match n with
           | 0 => EmptyString
           | S m => String c (str_take m rest)
           end
  end.

(** [doc.page_content[:200] + "..."] *)
Definition source_preview (doc : Document) : string :=
  str_take 200 (page_content doc) +:+ "...".

Section Ui.
Context {W : Type} (B : Backend W).

(** app.py, "Try to load existing database". *)
Definition app_load_existing : M W unit :=
  s ← get;
  if documents_loaded s then mret tt
  else
    loaded ← load_existing_vectorstore B;
    if loaded : bool then modify (set_documents_loaded true) else mret tt.

(** app.py, "Database stats": the metric shown, if any, the transcript
    afterwards, and whether the script was restarted by [st.rerun()] after
    the message "Database cleared!". *)
Definition sidebar_database (clear_pressed : bool) (messages : list ChatMessage)
  : M W (option nat * list ChatMessage * bool) :=
  s ← get;
  if documents_loaded s then
    n ← get_stats B;
    if clear_pressed then
      cleared ← clear_database B;
      if cleared : bool then
        modify (set_documents_loaded false);;
        mret (Some n, ([] : list ChatMessage), true)
      else mret (Some n, messages, false)
    else mret (Some n, messages, false)
  else mret (None, messages, false).

(** app.py, "Main chat interface", for the text [prompt] of the chat
    input (the empty text when nothing was entered). *)
Definition chat (prompt : string) (messages : list ChatMessage)
  : M W (option ChatView * list ChatMessage) :=
  s ← get;
  if negb (documents_loaded s) then mret (None, messages)
  else if str_is_empty prompt then mret (None, messages)
  else
    let messages1 := messages ++ [mkMessage "user" prompt] in
    result ← query B prompt;
    mret (Some (mkChatView (answer result)
                  (match sources result with
                   | [] => None
                   | docs => Some (map source_preview docs)
                   end)),
          messages1 ++ [mkMessage "assistant" (answer result)]).

End Ui.

(** ** Sessions, and the vocabulary of the properties *)

(** A use of the engine after its construction. *)
Inductive Op : Type :=
| op_ingest (documents : list Document)
| op_load
| op_query (question : string)
| op_stats
| op_clear.

(** The state after one operation, whether it returned or raised. *)
Definition run_op {W : Type} (B : Backend W) (op : Op) (s : State W) : State W :=
  match op with
  | op_ingest documents => snd (create_vectorstore B documents s)
  | op_load => snd (load_existing_vectorstore B s)
  | op_query question => snd (query B question s)
  | op_stats => snd (get_stats B s)
  | op_clear => snd (clear_database B s)
  end.

Definition run {W : Type} (B : Backend W) (ops : list Op) (s : State W) : State W :=
  fold_left (fun s op => run_op B op s) ops s.

Definition store_and_chain_agree (e : RAGEngine) : Prop :=
  vectorstore e = None <-> qa_chain e = None.

(** The backend builds every QA chain it is asked for. *)
Definition chain_construction_returns {W : Type} (B : Backend W) : Prop :=
  forall chain w, exists w', B unit (RetrievalQA_from_chain_type chain) w = (Returns tt, w').

(** The embeddings object a call works with, when it has one: the one
    handed to the vector store, or the one of the store the call is about. *)
Definition call_embeddings (c : Call) : option OllamaEmbeddings :=
  match projT2 c with
  | Chroma_from_documents _ emb _ _ => Some emb
  | Chroma_open _ emb _ => Some emb
  | RetrievalQA_from_chain_type chain =>
      Some (embedding_function (retriever_store (retriever chain)))
  | chain_invoke chain _ => Some (embedding_function (retriever_store (retriever chain)))
  | collection_count vs => Some (embedding_function vs)
  | delete_collection vs _ => Some (embedding_function vs)
  | _ => None
  end.

Definition uses_model (model : string) (c : Call) : Prop :=
  forall emb, call_embeddings c = Some emb -> emb_model emb = model.

(** What holds of the engine between operations: its embeddings object is
    [emb], and so is that of its store and of its chain's retriever. *)
Definition embeds_with (emb : OllamaEmbeddings) (e : RAGEngine) : Prop :=
  embeddings e = emb /\
  (forall vs, vectorstore e = Some vs -> embedding_function vs = emb) /\
  (forall chain, qa_chain e = Some chain ->
     embedding_function (retriever_store (retriever chain)) = emb).

(** The loader class for a lowercased extension, as [load_document]
    chooses it. *)
Definition loader_for (ext : string) : option LoaderKind :=
  if decide (ext = ".pdf") then Some PyPDFLoader
  else if decide (ext = ".txt") then Some TextLoader
  else if decide (ext = ".docx") then Some Docx2txtLoader
  else if decide (ext = ".md") then Some UnstructuredMarkdownLoader
  else None.

(** The engine embeds with [emb], and so did every call made so far. *)
Definition one_model {W : Type} (emb : OllamaEmbeddings) (s : State W) : Prop :=
  embeds_with emb (self s) /\ Forall (uses_model (emb_model emb)) (calls s).

(** Writing uploaded bytes to a temporary file, and unlinking one, go
    through. *)
Definition write_returns {W : Type} (B : Backend W) : Prop :=
  forall path data w, exists w', B unit (write_upload path data) w = (Returns tt, w').

Definition unlink_returns {W : Type} (B : Backend W) : Prop :=
  forall path w, exists w', B unit (os_unlink path) w = (Returns tt, w').

(** [m] keeps [I]: from a state where [I] holds, [m] ends -- by a return
    or by a raise -- in a state where [I] holds. *)
Definition keeps {W A : Type} (I : State W -> Prop) (m : M W A) : Prop :=
  forall s, I s -> I (snd (m s)).

(** Every temporary file that exists was there before the upload (the
    set [before]) or is listed in the handler's [temp_files]. *)
Definition staged_are_listed {W : Type} (before : gset string) (s : State W) : Prop :=
  files s ⊆ before ∪ list_to_set (temp_files s).

(** [c in s], for a character and a string. *)
Fixpoint occurs (c : ascii) (s : string) : bool :=
  match s with
  | EmptyString => false
  | String a rest => Ascii.eqb a c || occurs c rest
  end.

(** The calls that only touch temporary files. *)
Definition file_call (c : Call) : Prop :=
  match projT2 c with
  | NamedTemporaryFile _ | write_upload _ _ | os_unlink _ => True
  | _ => False
  end.

(** From [s] to [s1] the engine object was not assigned to and only
    temporary-file calls were made. *)
Definition only_file_calls {W : Type} (s s1 : State W) : Prop :=
  self s1 = self s /\ exists new, calls s1 = calls s ++ new /\ Forall file_call new.

(** The UI's flag says "loaded" only when the engine has a QA chain. *)
Definition ui_consistent {W : Type} (s : State W) : Prop :=
  documents_loaded s = true -> is_Some (qa_chain (self s)).

(** Text of ASCII characters only; on such text [lower] is [str.lower]. *)
Definition ascii_text (s : string) : Prop :=
  Forall (fun c => nat_of_ascii c < 128) (list_ascii_of_string s).


(** A question with at least one ASCII character that is not whitespace. *)
Definition has_visible_ascii (question : string) : Prop :=
  exists c : ascii,
    (c ∈ list_ascii_of_string question) /\ (nat_of_ascii c < 128) /\ is_space c = false.

(** ** An in-memory backend for examples

    The index is a list of entries, temporary files are numbered, and
    [fails] says which calls raise.  As with the real store,
    [Chroma.from_documents] raises [ValueError] for an empty sequence, and
    the [Chroma(...)] constructor opens the collection or creates it: it
    returns also when nothing was persisted. *)

Record Fake : Type := mkFake {
  entries : list Document;
  tmp_counter : nat
}.

Definition Faults : Type := forall R : Type, Ext R -> option PyExc.

Definition fake_backend (fails : Faults) : Backend Fake := fun R e w =>
  match fails R e with
  | Some exc => (Raises exc, w)
  | None =>
      match e in Ext R0 return Outcome R0 * Fake with
      | Chroma_from_documents docs _ _ _ =>
          match docs with
          | [] => (Raises (mkExc ValueError
                             "Expected IDs to be a non-empty list, got 0 IDs"), w)
          | _ => (Returns tt, mkFake (entries w ++ docs) (tmp_counter w))
          end
      | Chroma_open _ _ _ => (Returns tt, w)
      | RetrievalQA_from_chain_type _ => (Returns tt, w)
      | chain_invoke c q =>
          (Returns ("stub answer", take (search_k (retriever c)) (entries w)), w)
      | collection_count _ => (Returns (length (entries w)), w)
      | delete_collection _ _ => (Returns tt, mkFake [] (tmp_counter w))
      | loader_load _ p => (Returns [mkDocument ("text of " +:+ p) [("source", p)]], w)
      | splitter_split_documents _ _ docs => (Returns docs, w)
      | NamedTemporaryFile suffix =>
          (Returns ("/tmp/tmp" +:+ pretty (tmp_counter w) +:+ suffix),
           mkFake (entries w) (S (tmp_counter w)))
      | write_upload _ _ => (Returns tt, w)
      | os_unlink _ => (Returns tt, w)
      end
  end.

Definition no_faults : Faults := fun _ _ => None.

Definition doc1 : Document := mkDocument "The capital of France is Paris." [("source", "fr.txt")].
Definition doc2 : Document := mkDocument "Rocq is a proof assistant." [("source", "rocq.txt")].

Definition fresh : State Fake := initial_state (mkFake [] 0).

(** The store and the chain an engine built by [RAGEngine_init] sets up. *)
Definition ready_store : Chroma := new_store RAGEngine_init.
Definition ready_chain : RetrievalQA := new_chain RAGEngine_init ready_store.

(** The state after a successful ingest of two chunks on a fresh engine. *)
Definition ready : State Fake :=
  snd (create_vectorstore (fake_backend no_faults) [doc1; doc2] fresh).

(** *** Faults to inject, and inputs *)

(** The model server refuses connections: every invocation of a chain
    raises. *)
Definition ollama_down : Faults := fun R e =>
  match e with
  | chain_invoke _ _ => Some (mkExc (OtherException "ConnectError") "connection refused")
  | _ => None
  end.

(** The database file under the persist directory cannot be opened (a
    directory without write permission, say): the [Chroma(...)] constructor
    raises. *)
Definition store_unreadable : Faults := fun R e =>
  match e with
  | Chroma_open _ _ _ => Some (mkExc (OtherException "OperationalError")
                                     "unable to open database file")
  | _ => None
  end.

(** The collection cannot be counted. *)
Definition count_fails : Faults := fun R e =>
  match e with
  | collection_count _ => Some (mkExc (OtherException "OperationalError")
                                      "database is locked")
  | _ => None
  end.

(** The index refuses to delete the collection. *)
Definition delete_fails : Faults := fun R e =>
  match e with
  | delete_collection _ _ => Some (mkExc (OtherException "OperationalError")
                                         "database is locked")
  | _ => None
  end.

(** The construction of the QA chain raises. *)
Definition chain_construction_fails : Faults := fun R e =>
  match e with
  | RetrievalQA_from_chain_type _ =>
      Some (mkExc (OtherException "ValidationError") "1 validation error for RetrievalQA")
  | _ => None
  end.

(** Every loader finds its file unreadable. *)
Definition corrupt_files : Faults := fun R e =>
  match e with
  | loader_load _ _ => Some (mkExc (OtherException "PdfReadError") "EOF marker not found")
  | _ => None
  end.

(** The disk is full: writing the uploaded bytes raises. *)
Definition disk_full : Faults := fun R e =>
  match e with
  | write_upload _ _ => Some (mkExc (OtherException "OSError") "No space left on device")
  | _ => None
  end.

Definition a_txt : UploadFile := mkUpload "a.txt" "The capital of France is Paris.".

(** The embedding service is down: handing chunks to the store raises. *)
Definition embeddings_down : Faults := fun R e =>
  match e with
  | Chroma_from_documents _ _ _ _ =>
      Some (mkExc (OtherException "ConnectError") "connection refused")
  | _ => None
  end.

Definition b_exe : UploadFile := mkUpload "setup.EXE" "MZ".

(** The model server answers the health check's prompt, or does not. *)
Definition llm_up (llm : OllamaLLM) (prompt : string) (w : Fake)
  : Outcome string * Fake := (Returns "ok", w).

Definition llm_down (llm : OllamaLLM) (prompt : string) (w : Fake)
  : Outcome string * Fake :=
  (Raises (mkExc (OtherException "ConnectError") "connection refused"), w).

(** [str(e)] of an [HTTPException] as "<status>: <detail>". *)
Definition status_and_detail (status_code : nat) (detail : string) : string :=
  pretty status_code +:+ ": " +:+ detail.

(** * Properties *)

(** Unfold the monad's operations down to functions on states. *)
Ltac unfold_monad :=
  unfold mbind, M_bind, mret, M_ret, get, modify, raise, try_except, try_finally,
    call, print in *.

(** Split on what the backend answers to a call. *)
Ltac answer B :=
  match goal with
  | |- context [B ?R ?e ?w] =>
      let r := fresh "r" in
      let x := fresh "exc" in
      let w' := fresh "w" in
      let E := fresh "Hcall" in
      destruct (B R e w) as [[r | x] w'] eqn:E
  end.

(** ** Extensions of paths *)

Example splitext_pdf : lower (splitext_ext "/tmp/Report.v2.PDF") = ".pdf".
Proof. reflexivity. Qed.
Example splitext_hidden : splitext_ext "dir.d/.bashrc" = "".
Proof. reflexivity. Qed.

(** ** What each engine method does, call by call *)

Section EngineEquations.
Context {W : Type} (B : Backend W).

Lemma setup_qa_chain_eq (s : State W) (vs : Chroma) :
  vectorstore (self s) = Some vs ->
  _setup_qa_chain B s =
    let e := RetrievalQA_from_chain_type (new_chain (self s) vs) in
    match B unit e (world s) with
    | (Returns _, w) =>
        (Returns tt,
         set_self (with_qa_chain (Some (new_chain (self s) vs)) (self s)) (after_call e w s))
    | (Raises x, w) => (Raises x, after_call e w s)
    end.
Proof.
  intros Hvs. unfold _setup_qa_chain, set_qa_chain. unfold_monad. rewrite Hvs.
  cbv zeta. answer B; reflexivity.
Qed.

Lemma create_vectorstore_eq (documents : list Document) (s : State W) :
  create_vectorstore B documents s =
    let vs := new_store (self s) in
    let e1 := Chroma_from_documents documents (embeddings (self s))
                config.COLLECTION_NAME config.CHROMA_PERSIST_DIR in
    let e2 := RetrievalQA_from_chain_type (new_chain (self s) vs) in
    match B unit e1 (world s) with
    | (Raises x, w1) => (Raises x, after_call e1 w1 s)
    | (Returns _, w1) =>
        let s1 := set_self (with_vectorstore (Some vs) (self s)) (after_call e1 w1 s) in
        match B unit e2 w1 with
        | (Returns _, w2) =>
            (Returns (length documents),
             set_self (with_qa_chain (Some (new_chain (self s) vs)) (self s1))
               (after_call e2 w2 s1))
        | (Raises x, w2) => (Raises x, after_call e2 w2 s1)
        end
    end.
Proof.
  unfold create_vectorstore, _setup_qa_chain, set_vectorstore, set_qa_chain. unfold_monad.
  cbv zeta. answer B; [| reflexivity]. unfold new_chain. simpl. answer B; reflexivity.
Qed.

Lemma load_existing_vectorstore_eq (s : State W) :
  load_existing_vectorstore B s =
    let vs := new_store (self s) in
    let e1 := Chroma_open config.COLLECTION_NAME (embeddings (self s))
                config.CHROMA_PERSIST_DIR in
    let e2 := RetrievalQA_from_chain_type (new_chain (self s) vs) in
    match B unit e1 (world s) with
    | (Raises x, w1) => (Returns false, after_call e1 w1 s)
    | (Returns _, w1) =>
        let s1 := set_self (with_vectorstore (Some vs) (self s)) (after_call e1 w1 s) in
        match B unit e2 w1 with
        | (Returns _, w2) =>
            (Returns true,
             set_self (with_qa_chain (Some (new_chain (self s) vs)) (self s1))
               (after_call e2 w2 s1))
        | (Raises x, w2) => (Returns false, after_call e2 w2 s1)
        end
    end.
Proof.
  unfold load_existing_vectorstore, _setup_qa_chain, set_vectorstore, set_qa_chain.
  unfold_monad. cbv zeta. answer B; [| reflexivity]. unfold new_chain. simpl.
  answer B; reflexivity.
Qed.

Lemma query_eq (question : string) (s : State W) :
  query B question s =
    match qa_chain (self s) with
    | None => (Returns (mkResult no_documents_answer []), s)
    | Some chain =>
        let e := chain_invoke chain question in
        match B _ e (world s) with
        | (Returns result, w) =>
            (Returns (mkResult (fst result) (snd result)), after_call e w s)
        | (Raises x, w) =>
            (Returns (mkResult ("Error: " +:+ exc_str x) []), after_call e w s)
        end
    end.
Proof.
  unfold query. unfold_monad. destruct (qa_chain (self s)); [| reflexivity].
  cbv zeta. answer B; reflexivity.
Qed.

Lemma vectorstore_is_true_eq (s : State W) :
  vectorstore_is_true B s =
    match vectorstore (self s) with
    | None => (Returns false, s)
    | Some vs =>
        let e := collection_count vs in
        match B _ e (world s) with
        | (Returns n, w) => (Returns (negb (n =? 0)), after_call e w s)
        | (Raises x, w) => (Raises x, after_call e w s)
        end
    end.
Proof.
  unfold vectorstore_is_true. unfold_monad. destruct (vectorstore (self s)); [| reflexivity].
  cbv zeta. answer B; reflexivity.
Qed.

(** The count of the truth test is made before the [try]; on a store that
    holds something the collection is counted a second time inside it. *)
Lemma get_stats_eq (s : State W) :
  get_stats B s =
    match vectorstore (self s) with
    | None => (Returns 0, s)
    | Some vs =>
        let e := collection_count vs in
        match B _ e (world s) with
        | (Raises x, w) => (Raises x, after_call e w s)
        | (Returns 0, w) => (Returns 0, after_call e w s)
        | (Returns (S _), w) =>
            match B _ e w with
            | (Returns n, w') => (Returns n, after_call e w' (after_call e w s))
            | (Raises _, w') => (Returns 0, after_call e w' (after_call e w s))
            end
        end
    end.
Proof.
  unfold get_stats. unfold mbind at 1, M_bind. rewrite vectorstore_is_true_eq.
  destruct (vectorstore (self s)) as [vs |] eqn:Hvs; [| reflexivity].
  cbv zeta. answer B; [| reflexivity]. destruct r as [| m]; [reflexivity |].
  unfold_monad. simpl. rewrite Hvs. simpl. answer B; reflexivity.
Qed.

(** The count of the truth test is made inside the [try]; a store that
    holds nothing is false, and then nothing is deleted or unset. *)
Lemma clear_database_eq (s : State W) :
  clear_database B s =
    match vectorstore (self s) with
    | None => (Returns true, s)
    | Some vs =>
        let e0 := collection_count vs in
        let e := delete_collection vs config.COLLECTION_NAME in
        match B _ e0 (world s) with
        | (Raises x, w0) =>
            (Returns false,
             set_stdout (stdout s ++ ["Error clearing database: " +:+ exc_str x])
               (after_call e0 w0 s))
        | (Returns 0, w0) => (Returns true, after_call e0 w0 s)
        | (Returns (S _), w0) =>
            match B _ e w0 with
            | (Returns _, w) =>
                (Returns true,
                 set_self (with_qa_chain None (with_vectorstore None (self s)))
                   (after_call e w (after_call e0 w0 s)))
            | (Raises x, w) =>
                (Returns false,
                 set_stdout (stdout s ++ ["Error clearing database: " +:+ exc_str x])
                   (after_call e w (after_call e0 w0 s)))
            end
        end
    end.
Proof.
  unfold clear_database. unfold try_except at 1. unfold mbind at 1, M_bind.
  unfold mbind at 1, M_bind. rewrite vectorstore_is_true_eq.
  destruct (vectorstore (self s)) as [vs |] eqn:Hvs; [| reflexivity].
  cbv zeta. answer B; [| reflexivity]. destruct r as [| m]; [reflexivity |].
  unfold set_vectorstore, set_qa_chain. unfold_monad. simpl. rewrite Hvs. simpl.
  answer B; reflexivity.
Qed.

Lemma create_vectorstore_returns_inv (documents : list Document) (s s1 : State W)
    (n : nat) :
  create_vectorstore B documents s = (Returns n, s1) ->
  n = length documents /\
  qa_chain (self s1) = Some (new_chain (self s) (new_store (self s))).
Proof.
  rewrite create_vectorstore_eq. cbv zeta.
  answer B; cbv beta iota zeta; [| discriminate].
  answer B; cbv beta iota zeta; [| discriminate]. by intros [= <- <-].
Qed.

(** [query], [load_existing_vectorstore] and [clear_database] return
    whatever the backend answers: their handlers catch every exception of
    their bodies.  [get_stats] raises what the count of its truth test
    raises, and nothing else; it never assigns to the engine. *)
Lemma query_never_raises (question : string) (s : State W) :
  exists result s', query B question s = (Returns result, s').
Proof.
  rewrite query_eq. destruct (qa_chain (self s)); [| by eexists _, _].
  cbv zeta. answer B; by eexists _, _.
Qed.

Lemma get_stats_frame (s : State W) :
  self (snd (get_stats B s)) = self s /\
  documents_loaded (snd (get_stats B s)) = documents_loaded s /\
  shown (snd (get_stats B s)) = shown s.
Proof.
  rewrite get_stats_eq. destruct (vectorstore (self s)) as [vs |]; [| done].
  cbv zeta. answer B; [| done]. destruct r; [done |]. answer B; done.
Qed.

Lemma clear_database_never_raises (s : State W) :
  exists b s', clear_database B s = (Returns b, s').
Proof.
  rewrite clear_database_eq. destruct (vectorstore (self s)) as [vs |]; [| by eexists _, _].
  cbv zeta. answer B; [| by eexists _, _]. destruct r; [by eexists _, _ |].
  answer B; by eexists _, _.
Qed.

Lemma clear_database_frame (s : State W) :
  exists b s', clear_database B s = (Returns b, s') /\
               documents_loaded s' = documents_loaded s /\
               (b = false -> self s' = self s).
Proof.
  rewrite clear_database_eq. destruct (vectorstore (self s)) as [vs |]; [| by eexists _, _].
  cbv zeta. answer B; [| by eexists _, _]. destruct r; [by eexists _, _ |].
  answer B; by eexists _, _.
Qed.

Lemma load_existing_vectorstore_never_raises (s : State W) :
  exists b s', load_existing_vectorstore B s = (Returns b, s').
Proof.
  rewrite load_existing_vectorstore_eq. cbv zeta.
  answer B; [answer B |]; by eexists _, _.
Qed.

End EngineEquations.

(** A session on the in-memory backend: ingest two chunks, ask, count,
    clear, count again, ask again. *)
Example session_on_fake_backend :
  let B := fake_backend no_faults in
  fst (query B "What is the capital of France?" ready)
  = Returns (mkResult "stub answer" [doc1; doc2]) /\
  fst (get_stats B ready) = Returns 2 /\
  fst (clear_database B ready) = Returns true /\
  fst (get_stats B (snd (clear_database B ready))) = Returns 0 /\
  fst (query B "What is the capital of France?" (snd (clear_database B ready)))
  = Returns (mkResult no_documents_answer []).
Proof. repeat split; reflexivity. Qed.

(** ** The engine in the Empty state *)

(** C1. For every question, [query] on an engine whose QA chain is not
    loaded returns -- it does not raise -- the result whose answer says that
    no documents are loaded and whose sources list is empty; nothing is
    called and the state is unchanged. *)
Theorem query_on_empty_engine {W : Type} (B : Backend W) (question : string) (s : State W) :
  qa_chain (self s) = None ->
  query B question s
  = (Returns (mkResult "No documents loaded. Please upload documents first." []), s).
Proof. intros Hempty. rewrite query_eq, Hempty. reflexivity. Qed.

Lemma query_on_empty_engine_witness :
  qa_chain (self fresh) = None /\
  query (fake_backend no_faults) "What is the capital of France?" fresh
  = (Returns (mkResult "No documents loaded. Please upload documents first." []), fresh).
Proof. split; [reflexivity | apply query_on_empty_engine; reflexivity]. Defined.

(** C10. [clear_database] on an engine with no vector store returns [True],
    makes no call at all (so no deletion is attempted) and leaves the whole
    state, the engine included, as it was. *)
Theorem clear_on_empty_engine {W : Type} (B : Backend W) (s : State W) :
  vectorstore (self s) = None ->
  clear_database B s = (Returns true, s).
Proof. intros Hempty. rewrite clear_database_eq, Hempty. reflexivity. Qed.

Lemma clear_on_empty_engine_witness :
  vectorstore (self fresh) = None /\
  clear_database (fake_backend no_faults) fresh = (Returns true, fresh).
Proof. split; [reflexivity | apply clear_on_empty_engine; reflexivity]. Defined.

(** ** Failures during a query *)

(** C2. On an engine with a QA chain, when the chain's invocation (which
    embeds the question and calls the generative model) raises [e], [query]
    returns the result whose answer is ["Error: " + str(e)] and whose sources
    are empty.  The engine is unchanged; the call was made and logged. *)
Theorem query_reports_failure {W : Type} (B : Backend W) (question : string)
    (s : State W) (chain : RetrievalQA) (e : PyExc) (w' : W) :
  qa_chain (self s) = Some chain ->
  B _ (chain_invoke chain question) (world s) = (Raises e, w') ->
  query B question s
  = (Returns (mkResult ("Error: " +:+ exc_str e) []),
     after_call (chain_invoke chain question) w' s).
Proof.
  intros Hready Hfail. rewrite query_eq, Hready. cbv zeta. rewrite Hfail. reflexivity.
Qed.

Lemma query_reports_failure_witness :
  qa_chain (self ready) = Some ready_chain /\
  fake_backend ollama_down _ (chain_invoke ready_chain "Where is Paris?") (world ready)
  = (Raises (mkExc (OtherException "ConnectError") "connection refused"), world ready) /\
  query (fake_backend ollama_down) "Where is Paris?" ready
  = (Returns (mkResult "Error: connection refused" []),
     after_call (chain_invoke ready_chain "Where is Paris?") (world ready) ready).
Proof.
  split; [reflexivity | split; [reflexivity |]].
  apply (query_reports_failure (fake_backend ollama_down) _ ready ready_chain
           (mkExc (OtherException "ConnectError") "connection refused") (world ready));
    reflexivity.
Defined.

(** ** Start-up *)

Lemma startup_eq {W : Type} (B : Backend W) (s : State W) :
  startup B s = load_existing_vectorstore B (set_self RAGEngine_init s).
Proof. reflexivity. Qed.

(** What start-up does, whatever the backend answers: a newly constructed
    engine is Empty; [load_existing_vectorstore] never raises; it reports
    [True] exactly when the engine has become Ready, store and chain both
    set, which happens exactly when the [Chroma(...)] constructor and the
    chain construction both return; when the constructor raises it reports
    [False] and the engine stays Empty. *)
Lemma startup_outcome {W : Type} (B : Backend W) (s : State W) :
  let opened :=
    B unit (Chroma_open config.COLLECTION_NAME (embeddings RAGEngine_init)
              config.CHROMA_PERSIST_DIR) (world s) in
  vectorstore RAGEngine_init = None /\ qa_chain RAGEngine_init = None /\
  exists (b : bool) (s' : State W),
    startup B s = (Returns b, s') /\
    (b = true <->
       vectorstore (self s') = Some ready_store /\ qa_chain (self s') = Some ready_chain) /\
    (b = false <-> qa_chain (self s') = None) /\
    (b = true <->
       exists w1 w2, opened = (Returns tt, w1) /\
         B unit (RetrievalQA_from_chain_type ready_chain) w1 = (Returns tt, w2)) /\
    (forall e w1, opened = (Raises e, w1) ->
       b = false /\ vectorstore (self s') = None /\ qa_chain (self s') = None).
Proof.
  intros opened. split; [reflexivity | split; [reflexivity |]].
  rewrite startup_eq, load_existing_vectorstore_eq. cbv zeta.
  change (self (set_self RAGEngine_init s)) with RAGEngine_init.
  change (world (set_self RAGEngine_init s)) with (world s).
  change (new_store RAGEngine_init) with ready_store.
  change (new_chain RAGEngine_init ready_store) with ready_chain. subst opened.
  destruct (B unit (Chroma_open _ _ _) (world s)) as [[[] | e1] w1] eqn:Hopen.
  - destruct (B unit (RetrievalQA_from_chain_type ready_chain) w1) as [[[] | e2] w2] eqn:Hqa.
    + eexists true, _. split; [reflexivity |]. simpl.
      repeat split; try done. intros _. exists w1, w2. by rewrite Hqa.
    + eexists false, _. split; [reflexivity |]. simpl.
      split; [split; [done | by intros [_ ?]] |]. split; [done |].
      split; [| done]. split; [done |].
      intros (w1' & w2' & Heq & Hqa'). inversion Heq; subst. by rewrite Hqa in Hqa'.
  - eexists false, _. split; [reflexivity |]. simpl.
    split; [split; [done | by intros [? _]] |]. split; [done |].
    split; [| done]. split; [done |]. by intros (w1' & w2' & Heq & _).
Qed.

Example startup_with_unreadable_store :
  fst (startup (fake_backend store_unreadable) fresh) = Returns false /\
  vectorstore (self (snd (startup (fake_backend store_unreadable) fresh))) = None /\
  qa_chain (self (snd (startup (fake_backend store_unreadable) fresh))) = None.
Proof. repeat split; reflexivity. Qed.

(** C8.  The code breaks the claim on a first start.  The engine is built
    Empty, as claimed.  But with nothing persisted the [Chroma(...)]
    constructor of [load_existing_vectorstore] ("Load existing vector
    store") creates the collection instead of raising: the load reports
    [True], the engine is Ready over a collection of 0 chunks, and the UI
    sets its flag as if documents had been loaded. *)
Theorem first_start_reports_loaded :
  let B := fake_backend no_faults in
  entries (world fresh) = [] /\
  vectorstore (self fresh) = None /\ qa_chain (self fresh) = None /\
  fst (startup B fresh) = Returns true /\
  vectorstore (self (snd (startup B fresh))) = Some ready_store /\
  qa_chain (self (snd (startup B fresh))) = Some ready_chain /\
  entries (world (snd (startup B fresh))) = [] /\
  documents_loaded (snd (app_load_existing B fresh)) = true.
Proof. repeat split; reflexivity. Qed.

(** ** Ingestion *)



(** ** Clearing *)

(** C7, as the claim states it, fails: when the deletion raises, [clear]
    reports [False], the engine keeps its store, and a following [get_stats]
    reports the two entries still in the index. *)
Lemma clear_failed_then_stats_nonzero :
  fst (clear_database (fake_backend delete_fails) ready) = Returns false /\
  self (snd (clear_database (fake_backend delete_fails) ready)) = self ready /\
  fst (get_stats (fake_backend delete_fails)
         (snd (clear_database (fake_backend delete_fails) ready))) = Returns 2.
Proof. repeat split; reflexivity. Qed.

(** C7, amended.  [clear_database] never raises.  On an engine with no
    store it returns [True] and changes nothing, and a following [get_stats]
    returns 0.  On an engine whose store holds at least one chunk (the count
    of the store's truth test returns a number that is not 0) it then makes
    one more call, the deletion of the configured collection; if that
    returns, both the store and the chain are unset, the result is [True]
    and a following [get_stats] returns 0 without calling the index; if it
    raises, the result is [False], the error is printed and the engine keeps
    its store and chain. *)
Theorem clear_then_stats_after_deletion {W : Type} (B : Backend W) (s : State W) :
  exists (b : bool) (s' : State W),
    clear_database B s = (Returns b, s') /\
    (vectorstore (self s) = None ->
       b = true /\ s' = s /\ get_stats B s' = (Returns 0, s')) /\
    (forall vs m w0,
       vectorstore (self s) = Some vs ->
       B nat (collection_count vs) (world s) = (Returns (S m), w0) ->
       let e := delete_collection vs config.COLLECTION_NAME in
       calls s' = calls s ++ [logged (collection_count vs); logged e] /\
       match B unit e w0 with
       | (Returns _, _) =>
           b = true /\ vectorstore (self s') = None /\ qa_chain (self s') = None /\
           get_stats B s' = (Returns 0, s')
       | (Raises x, _) =>
           b = false /\ self s' = self s /\
           stdout s' = stdout s ++ ["Error clearing database: " +:+ exc_str x]
       end).
Proof.
  destruct (clear_database_never_raises B s) as (b & s' & Hrun).
  exists b, s'. split; [exact Hrun |]. rewrite clear_database_eq in Hrun. split.
  - intros Hvs. rewrite Hvs in Hrun. injection Hrun as <- <-.
    split; [reflexivity |]. split; [reflexivity |]. rewrite get_stats_eq, Hvs. reflexivity.
  - intros vs m w0 Hvs Hcount. rewrite Hvs in Hrun. cbv zeta in Hrun.
    rewrite Hcount in Hrun. cbv zeta.
    destruct (B unit (delete_collection vs config.COLLECTION_NAME) w0)
      as [[[] | x] w] eqn:Hdel; injection Hrun as <- <-.
    + split; [simpl; by rewrite <- app_assoc |].
      split; [reflexivity |]. split; [reflexivity |]. split; [reflexivity |].
      rewrite get_stats_eq. reflexivity.
    + split; [simpl; by rewrite <- app_assoc |]. auto.
Qed.

Lemma clear_then_stats_after_deletion_witness :
  exists s',
    clear_database (fake_backend no_faults) ready = (Returns true, s') /\
    vectorstore (self s') = None /\ qa_chain (self s') = None /\
    get_stats (fake_backend no_faults) s' = (Returns 0, s').
Proof.
  destruct (clear_then_stats_after_deletion (fake_backend no_faults) ready)
    as (b & s' & Hrun & _ & Hready).
  destruct (Hready ready_store 1 (world ready) eq_refl eq_refl) as (_ & -> & Hvs & Hqa & Hstats).
  exists s'. auto.
Defined.

(** What the claim leaves open: a store that holds nothing is false in
    [if self.vectorstore], so on an engine loaded over an empty collection
    [clear_database] returns [True] having deleted and unset nothing. *)
Example clear_on_store_without_chunks :
  let B := fake_backend no_faults in
  let loaded := snd (startup B fresh) in
  fst (clear_database B loaded) = Returns true /\
  self (snd (clear_database B loaded)) = self loaded /\
  calls (snd (clear_database B loaded)) = calls loaded ++ [logged (collection_count ready_store)].
Proof. repeat split; reflexivity. Qed.

(** ** The store and the chain are set together *)

(** C9, as the claim states it, fails: on a newly built engine, when the
    store opens and the chain construction then raises,
    [load_existing_vectorstore] reports [False] having already assigned the
    store, so the store is set and the chain is not. *)
Lemma load_failure_leaves_store_without_chain :
  store_and_chain_agree (self fresh) /\
  fst (load_existing_vectorstore (fake_backend chain_construction_fails) fresh)
  = Returns false /\
  ~ store_and_chain_agree
      (self (snd (load_existing_vectorstore (fake_backend chain_construction_fails) fresh))).
Proof.
  split; [done |]. split; [reflexivity |].
  intros [_ Hback]. specialize (Hback eq_refl). discriminate Hback.
Qed.

(** C9, amended.  Provided the construction of the QA chain does not
    raise: a newly built engine has neither store nor chain, and
    [create_vectorstore], [load_existing_vectorstore], [query], [get_stats]
    and [clear_database], whatever their other calls answer and whether they
    return or raise, lead from a state where the store is unset exactly
    when the chain is unset to a state with the same property. *)
Theorem store_and_chain_agree_preserved {W : Type} (B : Backend W) :
  chain_construction_returns B ->
  store_and_chain_agree RAGEngine_init /\
  forall s : State W,
    store_and_chain_agree (self s) ->
    (forall documents,
        store_and_chain_agree (self (snd (create_vectorstore B documents s)))) /\
    store_and_chain_agree (self (snd (load_existing_vectorstore B s))) /\
    (forall question, store_and_chain_agree (self (snd (query B question s)))) /\
    store_and_chain_agree (self (snd (get_stats B s))) /\
    store_and_chain_agree (self (snd (clear_database B s))).
Proof.
  intros Hbuild. split; [done |]. intros s Hinv.
  split; [| split; [| split; [| split]]].
  - intros documents. rewrite create_vectorstore_eq. cbv zeta.
    answer B; [| exact Hinv].
    destruct (Hbuild (new_chain (self s) (new_store (self s))) w) as [w2 ->]. done.
  - rewrite load_existing_vectorstore_eq. cbv zeta. answer B; [| exact Hinv].
    destruct (Hbuild (new_chain (self s) (new_store (self s))) w) as [w2 ->]. done.
  - intros question. rewrite query_eq. destruct (qa_chain (self s)); [| exact Hinv].
    cbv zeta. answer B; exact Hinv.
  - by destruct (get_stats_frame B s) as (-> & _).
  - rewrite clear_database_eq. destruct (vectorstore (self s)) eqn:Hvs; [| exact Hinv].
    cbv zeta. answer B; [| exact Hinv]. destruct r; [exact Hinv |].
    answer B; [done | exact Hinv].
Qed.

Lemma store_and_chain_agree_preserved_witness :
  chain_construction_returns (fake_backend delete_fails) /\
  store_and_chain_agree (self ready) /\
  store_and_chain_agree (self (snd (clear_database (fake_backend delete_fails) ready))) /\
  store_and_chain_agree (self (snd (load_existing_vectorstore (fake_backend delete_fails) fresh))).
Proof.
  assert (Hbuild : chain_construction_returns (fake_backend delete_fails))
    by (intros chain w; exists w; reflexivity).
  split; [exact Hbuild |].
  destruct (store_and_chain_agree_preserved (fake_backend delete_fails) Hbuild) as [H0 Hstep].
  split; [done |]. split.
  - apply (Hstep ready). done.
  - apply (Hstep fresh). exact H0.
Defined.

(** ** Which embedding model is used *)

(** C6, as the claim states it, fails: the ingestion call of a newly built
    engine carries the model "nomic-embed-text", which is not the
    configuration's [EMBEDDING_MODEL]. *)
Lemma ingest_ignores_configured_embedding_model :
  (calls (run (fake_backend no_faults) [op_ingest [doc1]] fresh)) !! 0
  = Some (logged (Chroma_from_documents [doc1]
                    (mkEmbeddings "nomic-embed-text" config.OLLAMA_BASE_URL)
                    config.COLLECTION_NAME config.CHROMA_PERSIST_DIR)) /\
  config.EMBEDDING_MODEL = "all-MiniLM-L6-v2" /\
  "nomic-embed-text" <> config.EMBEDDING_MODEL.
Proof. split; [reflexivity | split; [reflexivity | discriminate]]. Qed.

Section OneModel.
Context {W : Type} (B : Backend W) (emb : OllamaEmbeddings).


(** The log grew by calls that use the model. *)
Ltac log_grew :=
  simpl; rewrite <- ?app_assoc; apply Forall_app; split; [assumption |];
  repeat constructor; assumption.

Lemma run_op_one_model (op : Op) (s : State W) :
  one_model emb s -> one_model emb (run_op B op s).
Proof.
  intros [(Hemb & Hvs & Hqa) Hcalls]. unfold one_model, embeds_with.
  assert (Hstore : uses_model (emb_model emb)
                     (logged (RetrievalQA_from_chain_type
                                (new_chain (self s) (new_store (self s)))))).
  { intros x [= <-]. simpl. by rewrite Hemb. }
  destruct op as [documents | | question | |]; simpl.
  - rewrite create_vectorstore_eq. cbv zeta.
    set (e1 := Chroma_from_documents _ _ _ _).
    assert (H1 : uses_model (emb_model emb) (logged e1)).
    { intros x [= <-]. by rewrite Hemb. }
    destruct (B unit e1 (world s)) as [[[] | x1] w1].
    + answer B.
      * repeat split; [done | by intros vs [= <-] | by intros c [= <-] | log_grew].
      * repeat split; [done | by intros vs [= <-] | done | log_grew].
    + repeat split; [done | done | done | log_grew].
  - rewrite load_existing_vectorstore_eq. cbv zeta.
    set (e1 := Chroma_open _ _ _).
    assert (H1 : uses_model (emb_model emb) (logged e1)).
    { intros x [= <-]. by rewrite Hemb. }
    destruct (B unit e1 (world s)) as [[[] | x1] w1].
    + answer B.
      * repeat split; [done | by intros vs [= <-] | by intros c [= <-] | log_grew].
      * repeat split; [done | by intros vs [= <-] | done | log_grew].
    + repeat split; [done | done | done | log_grew].
  - rewrite query_eq. destruct (qa_chain (self s)) as [chain |] eqn:Hchain; [| simpl; repeat split; intros; (assumption || congruence || eauto)].
    cbv zeta.
    assert (H1 : uses_model (emb_model emb) (logged (chain_invoke chain question))).
    { intros x [= <-]. by rewrite (Hqa chain). }
    answer B; (repeat split; [done | done | by intros c Hc; apply Hqa; rewrite <- Hchain | log_grew]).
  - rewrite get_stats_eq. destruct (vectorstore (self s)) as [vs |] eqn:Hstored; [| simpl; repeat split; intros; (assumption || congruence || eauto)].
    cbv zeta.
    assert (H1 : uses_model (emb_model emb) (logged (collection_count vs))).
    { intros x [= <-]. by rewrite (Hvs vs). }
    answer B; [destruct r; [| answer B] |];
      (repeat split; [done | by intros c Hc; apply Hvs; rewrite <- Hstored | done | log_grew]).
  - rewrite clear_database_eq. destruct (vectorstore (self s)) as [vs |] eqn:Hstored; [| simpl; repeat split; intros; (assumption || congruence || eauto)].
    cbv zeta.
    assert (H0 : uses_model (emb_model emb) (logged (collection_count vs))).
    { intros x [= <-]. by rewrite (Hvs vs). }
    assert (H1 : uses_model (emb_model emb)
                   (logged (delete_collection vs config.COLLECTION_NAME))).
    { intros x [= <-]. by rewrite (Hvs vs). }
    answer B; [destruct r; [| answer B] |].
    + repeat split; [done | by intros c Hc; apply Hvs; rewrite <- Hstored | done | log_grew].
    + repeat split; [done | done | done | log_grew].
    + repeat split; [done | by intros c Hc; apply Hvs; rewrite <- Hstored | done | log_grew].
    + repeat split; [done | by intros c Hc; apply Hvs; rewrite <- Hstored | done | log_grew].
Qed.

Lemma run_one_model (ops : list Op) (s : State W) :
  one_model emb s -> one_model emb (run B ops s).
Proof.
  revert s. induction ops as [| op ops IH]; intros s Hs; [exact Hs |].
  simpl. apply IH. by apply run_op_one_model.
Qed.

End OneModel.

(** C6, amended.  The engine embeds with the model named literally in its
    constructor, "nomic-embed-text" -- the configuration's
    [EMBEDDING_MODEL] is not read.  After any sequence of operations on a
    newly built engine, whatever the backend answers, the engine's
    embeddings object is still that one, and every call that involves
    embeddings -- handing chunks to the store on ingestion, opening the
    store, building the chain, invoking it on a question, counting,
    deleting -- works with that same model. *)
Theorem engine_embeds_with_one_model {W : Type} (B : Backend W) (ops : list Op) (w : W) :
  let s := run B ops (initial_state w) in
  embeddings (self s) = mkEmbeddings "nomic-embed-text" config.OLLAMA_BASE_URL /\
  Forall (uses_model "nomic-embed-text") (calls s).
Proof.
  intros s.
  destruct (run_one_model B (mkEmbeddings "nomic-embed-text" config.OLLAMA_BASE_URL)
              ops (initial_state w)) as [(Hemb & _) Hcalls].
  - split; [| constructor]. repeat split; done.
  - split; [exact Hemb | exact Hcalls].
Qed.

(** ** The loader's errors *)

Lemma loader_for_supported (ext : string) :
  is_Some (loader_for ext) <-> ext ∈ config.SUPPORTED_EXTENSIONS.
Proof.
  unfold config.SUPPORTED_EXTENSIONS. split.
  - unfold loader_for. repeat case_decide; subst; intros Hsome;
      by repeat constructor.
  - intros Hin.
    repeat (apply elem_of_cons in Hin as [-> | Hin]; [by eexists |]).
    by apply elem_of_nil in Hin.
Qed.

(** X6. For every path whose extension is ASCII text and, lowercased, is
    not supported, [load_document] calls no loader and raises a plain
    [Exception] whose text wraps that of the [ValueError], which names the
    lowercased extension.  (On ASCII text [lower] is [str.lower]; the
    path before the extension is copied as it is and may hold any text.) *)
Lemma load_document_unsupported {W : Type} (B : Backend W) (file_path : string)
    (s : State W) :
  ascii_text (splitext_ext file_path) ->
  lower (splitext_ext file_path) ∉ config.SUPPORTED_EXTENSIONS ->
  load_document B file_path s
  = (Raises (mkExc PlainException
               ("Error loading " +:+ file_path +:+ ": Unsupported file type: "
                +:+ lower (splitext_ext file_path))), s).
Proof.
  intros _ Hext. rewrite <- loader_for_supported in Hext.
  unfold loader_for in Hext. unfold load_document. unfold_monad.
  repeat case_decide; try (exfalso; apply Hext; by eexists). reflexivity.
Qed.

(** For every path of a supported extension, when the loader raises [x],
    [load_document] raises a plain [Exception] whose text wraps [str(x)]. *)
Lemma load_document_unparsable {W : Type} (B : Backend W) (file_path : string)
    (s : State W) (kind : LoaderKind) (x : PyExc) (w : W) :
  loader_for (lower (splitext_ext file_path)) = Some kind ->
  B _ (loader_load kind file_path) (world s) = (Raises x, w) ->
  load_document B file_path s
  = (Raises (mkExc PlainException ("Error loading " +:+ file_path +:+ ": " +:+ exc_str x)),
     after_call (loader_load kind file_path) w s).
Proof.
  unfold loader_for, load_document. unfold_monad.
  repeat case_decide; intros [= <-] Hload; rewrite Hload; reflexivity.
Qed.

(** C4.  [process_documents] on a file of an unsupported type and on an
    unreadable file of a supported type: both raise an exception of the
    same class, plain [Exception], with a text of the same shape -- the
    [ValueError] that [load_document] raises for the unsupported type does
    not reach the caller. *)
Theorem unsupported_type_raises_plain_exception :
  fst (process_documents (fake_backend corrupt_files) ["notes.xyz"] fresh)
  = Raises (mkExc PlainException "Error loading notes.xyz: Unsupported file type: .xyz") /\
  fst (process_documents (fake_backend corrupt_files) ["notes.pdf"] fresh)
  = Raises (mkExc PlainException "Error loading notes.pdf: EOF marker not found").
Proof. split; reflexivity. Qed.

(** ** Temporary files of the upload paths *)

(** C5.  One uploaded file, [a.txt], whose staged copy the loader cannot
    read.  The UI's handler shows the error and leaves the staged file in
    place: its cleanup loop sits in the [try] body after the processing and
    is skipped.  The API's handler, on the same input, raises a 500 and its
    [finally] block has removed the file. *)
Theorem ui_upload_failure_leaves_temp_file :
  let ui := process_documents_handler (fake_backend corrupt_files) [a_txt] fresh in
  let api := upload_documents (fake_backend corrupt_files) [a_txt] fresh in
  fst ui = Returns tt /\
  shown (snd ui) = [st_error "Error loading /tmp/tmp0.txt: EOF marker not found"] /\
  files (snd ui) = {[ "/tmp/tmp0.txt" ]} /\
  fst api = Raises (mkExc (HTTPException 500)
                      "Error processing documents: Error loading /tmp/tmp0.txt: EOF marker not found") /\
  files (snd api) = ∅.
Proof. vm_compute. repeat split; reflexivity. Qed.

(** In the API's handler the name of a temporary file is appended to
    [temp_files] only after the bytes are written: when the write raises,
    the file exists and the [finally] block does not know it. *)
Example api_write_failure_leaves_temp_file :
  let api := upload_documents (fake_backend disk_full) [a_txt] fresh in
  fst api = Raises (mkExc (HTTPException 500)
                      "Error processing documents: No space left on device") /\
  temp_files (snd api) = [] /\
  files (snd api) = {[ "/tmp/tmp0.txt" ]}.
Proof. vm_compute. repeat split; reflexivity. Qed.

(** *** The API's handler, which the UI's handler should match *)

Section Keeping.
Context {W : Type} (B : Backend W) (I : State W -> Prop).
Hypothesis I_after_call :
  forall (R : Type) (e : Ext R) (w : W) (s : State W), I s -> I (after_call e w s).
Hypothesis I_set_self : forall (e : RAGEngine) (s : State W), I s -> I (set_self e s).

Lemma keeps_ret {A : Type} (a : A) : keeps I (mret a : M W A).
Proof. intros s Hs. exact Hs. Qed.

Lemma keeps_raise {A : Type} (x : PyExc) : keeps I (raise x : M W A).
Proof. intros s Hs. exact Hs. Qed.

Lemma keeps_bind {A C : Type} (m : M W A) (f : A -> M W C) :
  keeps I m -> (forall a, keeps I (f a)) -> keeps I (m ≫= f).
Proof.
  intros Hm Hf s Hs. specialize (Hm s Hs). unfold mbind, M_bind.
  destruct (m s) as [[a | x] s1]; [by apply Hf | exact Hm].
Qed.

Lemma keeps_try_except {A : Type} (body : M W A) (handler : PyExc -> M W A) :
  keeps I body -> (forall x, keeps I (handler x)) -> keeps I (try_except body handler).
Proof.
  intros Hm Hh s Hs. specialize (Hm s Hs). unfold try_except.
  destruct (body s) as [[a | x] s1]; [exact Hm | by apply Hh].
Qed.

Lemma keeps_for_each {A : Type} (xs : list A) (body : A -> M W unit) :
  (forall x, keeps I (body x)) -> keeps I (for_each xs body).
Proof.
  intros Hbody. induction xs as [| x xs IH]; [apply keeps_ret |].
  simpl. apply keeps_bind; [apply Hbody | intros _; exact IH].
Qed.

Lemma keeps_get_then {A : Type} (f : State W -> M W A) :
  (forall s0, keeps I (f s0)) -> keeps I (get ≫= f).
Proof. intros Hf s Hs. unfold mbind, M_bind, get. by apply Hf. Qed.

Lemma keeps_call {R : Type} (e : Ext R) : keeps I (call B e).
Proof.
  intros s Hs. unfold call. destruct (B R e (world s)) as [r w]. by apply I_after_call.
Qed.

Lemma keeps_load_document (file_path : string) : keeps I (load_document B file_path).
Proof.
  unfold load_document. apply keeps_try_except; [| intros x; apply keeps_raise].
  apply keeps_bind; [| intros kind; apply keeps_call].
  repeat case_decide; (apply keeps_ret || apply keeps_raise).
Qed.

Lemma keeps_load_all (file_paths : list string) (all_docs : list Document) :
  keeps I (load_all B file_paths all_docs).
Proof.
  revert all_docs. induction file_paths as [| file_path rest IH]; intros all_docs.
  - apply keeps_ret.
  - simpl. apply keeps_bind; [apply keeps_load_document | intros docs; apply IH].
Qed.

Lemma keeps_process_documents (file_paths : list string) :
  keeps I (process_documents B file_paths).
Proof.
  unfold process_documents, split_documents.
  apply keeps_bind; [apply keeps_load_all | intros docs; apply keeps_call].
Qed.

Lemma keeps_create_vectorstore (documents : list Document) :
  keeps I (create_vectorstore B documents).
Proof.
  intros s Hs. rewrite create_vectorstore_eq. cbv zeta.
  answer B; [| by apply I_after_call].
  answer B; simpl; repeat (apply I_set_self || apply I_after_call); exact Hs.
Qed.

End Keeping.

Section ApiCleanup.
Context {W : Type} (B : Backend W).

Lemma staged_are_listed_after_call (before : gset string) (R : Type) (e : Ext R)
    (w : W) (s : State W) :
  staged_are_listed before s -> staged_are_listed before (after_call e w s).
Proof. intros Hs. exact Hs. Qed.

Lemma staged_are_listed_set_self (before : gset string) (e : RAGEngine) (s : State W) :
  staged_are_listed before s -> staged_are_listed before (set_self e s).
Proof. intros Hs. exact Hs. Qed.

(** Staging one upload in the API: the file created is listed, as long
    as writing to it goes through. *)
Lemma api_stage_keeps_listed (before : gset string) (uploaded_file : UploadFile) :
  write_returns B -> keeps (staged_are_listed before) (api_stage B uploaded_file).
Proof.
  intros Hwrite s Hs. unfold api_stage. case_bool_decide; [| exact Hs].
  unfold tempfile_NamedTemporaryFile, temp_files_append. unfold_monad.
  destruct (B string (NamedTemporaryFile _) (world s)) as [[name | x] w1]; [| exact Hs].
  simpl. destruct (Hwrite name (file uploaded_file) w1) as [w2 ->]. simpl.
  unfold staged_are_listed in *. simpl. rewrite list_to_set_app_L. simpl.
  intros p [->%elem_of_singleton | Hp%Hs]%elem_of_union.
  - apply elem_of_union_r, elem_of_union_r, elem_of_union_l. by apply elem_of_singleton.
  - apply elem_of_union in Hp as [Hp | Hp]; [by apply elem_of_union_l |].
    by apply elem_of_union_r, elem_of_union_l.
Qed.

Lemma unlink_quietly_eq (path : string) (s : State W) :
  unlink_returns B ->
  exists w, unlink_quietly B path s
            = (Returns tt, set_files (files s ∖ {[ path ]}) (after_call (os_unlink path) w s)).
Proof.
  intros Hunlink. destruct (Hunlink path (world s)) as [w Hw]. exists w.
  unfold unlink_quietly, unlink. unfold_monad. rewrite Hw. reflexivity.
Qed.

(** The cleanup loop removes every listed file when unlinking goes
    through. *)
Lemma cleanup_loop (paths : list string) (s : State W) :
  unlink_returns B ->
  exists s',
    for_each paths (unlink_quietly B) s = (Returns tt, s') /\
    files s' = files s ∖ list_to_set paths /\ temp_files s' = temp_files s.
Proof.
  intros Hunlink. revert s. induction paths as [| path rest IH]; intros s.
  - exists s. split; [reflexivity |]. split; [| reflexivity].
    simpl. by rewrite difference_empty_L.
  - simpl. unfold mbind, M_bind.
    destruct (unlink_quietly_eq path s Hunlink) as [w ->].
    destruct (IH (set_files (files s ∖ {[ path ]}) (after_call (os_unlink path) w s)))
      as (s' & -> & Hfiles & Htemp).
    exists s'. split; [reflexivity |]. split; [| exact Htemp].
    rewrite Hfiles. simpl. by rewrite difference_difference_l_L.
Qed.

(** X11. The API's upload handler, for every list of uploads and whatever
    the loaders, the splitter and the vector store answer: when writing and
    unlinking temporary files go through, no temporary file exists after
    the handler that did not exist before it, whether the handler returned
    or raised a 400 or a 500. *)
Lemma upload_documents_leaves_no_temp_file (uploads : list UploadFile) (s : State W) :
  write_returns B -> unlink_returns B ->
  files (snd (upload_documents B uploads s)) ⊆ files s.
Proof.
  intros Hwrite Hunlink. destruct uploads as [| u uploads]; [done |].
  unfold upload_documents.
  set (body := try_except _ _).
  assert (Hbody : keeps (staged_are_listed (files s)) body).
  { subst body. apply keeps_try_except.
    - apply keeps_bind.
      + apply keeps_for_each. intros x. by apply api_stage_keeps_listed.
      + intros _. apply keeps_get_then. intros s0.
        apply keeps_bind; [by apply keeps_process_documents |].
        intros [| chunk chunks]; [apply keeps_raise |].
        apply keeps_bind; [by apply keeps_create_vectorstore | intros n; apply keeps_ret].
    - intros x. destruct (exc_class x); apply keeps_raise. }
  unfold mbind at 1. unfold M_bind, modify, try_finally.
  specialize (Hbody (set_temp_files [] s)).
  destruct (body (set_temp_files [] s)) as [r s1]. simpl in Hbody.
  assert (Hs1 : staged_are_listed (files s) s1).
  { apply Hbody. unfold staged_are_listed. simpl. apply union_subseteq_l. }
  unfold cleanup_temp_files. unfold mbind, M_bind, get.
  destruct (cleanup_loop (temp_files s1) s1 Hunlink) as (s2 & -> & Hfiles & _).
  simpl. rewrite Hfiles. unfold staged_are_listed in Hs1.
  intros p [Hp%Hs1 Hunlisted]%elem_of_difference.
  by apply elem_of_union in Hp as [Hp | Hp].
Qed.

End ApiCleanup.

(** * Further properties of the engine *)

Section EngineMore.
Context {W : Type} (B : Backend W).

(** X1. [get_stats] never changes the engine.  Without a store it
    returns 0 and makes no call.  With a store, the truth test of
    [if not self.vectorstore], which stands before the [try], counts the
    store's collection: an exception of that count leaves [get_stats]; a
    count of 0 gives 0; and otherwise the collection is counted a second
    time, inside the [try], and the result is that second count, or 0 when
    it raises. *)
Theorem get_stats_outcome (s : State W) :
  self (snd (get_stats B s)) = self s /\
  match vectorstore (self s) with
  | None => get_stats B s = (Returns 0, s)
  | Some vs =>
      let e := collection_count vs in
      match B nat e (world s) with
      | (Raises x, _) =>
          fst (get_stats B s) = Raises x /\
          calls (snd (get_stats B s)) = calls s ++ [logged e]
      | (Returns 0, _) =>
          fst (get_stats B s) = Returns 0 /\
          calls (snd (get_stats B s)) = calls s ++ [logged e]
      | (Returns (S _), w) =>
          calls (snd (get_stats B s)) = calls s ++ [logged e; logged e] /\
          match fst (B nat e w) with
          | Returns n => fst (get_stats B s) = Returns n
          | Raises _ => fst (get_stats B s) = Returns 0
          end
      end
  end.
Proof.
  split; [by destruct (get_stats_frame B s) |].
  rewrite get_stats_eq. destruct (vectorstore (self s)) as [vs |]; [| reflexivity].
  cbv zeta. destruct (B nat (collection_count vs) (world s)) as [[[| m] | x] w];
    [done | | done].
  destruct (B nat (collection_count vs) w) as [[n | x] w']; simpl;
    by rewrite <- app_assoc.
Qed.

(** X2. When the construction of the store raises, the engine is left as
    it was, store and chain included: [create_vectorstore] lets the
    exception of [Chroma.from_documents] through, and
    [load_existing_vectorstore] turns that of [Chroma(...)] into [False]. *)
Theorem store_failure_keeps_engine (documents : list Document) (s : State W) :
  (forall x w,
      B unit (Chroma_from_documents documents (embeddings (self s))
                config.COLLECTION_NAME config.CHROMA_PERSIST_DIR) (world s)
      = (Raises x, w) ->
      exists s', create_vectorstore B documents s = (Raises x, s') /\ self s' = self s) /\
  (forall x w,
      B unit (Chroma_open config.COLLECTION_NAME (embeddings (self s))
                config.CHROMA_PERSIST_DIR) (world s)
      = (Raises x, w) ->
      exists s', load_existing_vectorstore B s = (Returns false, s') /\ self s' = self s).
Proof.
  split; intros x w Hfail.
  - rewrite create_vectorstore_eq. cbv zeta. rewrite Hfail. by eexists.
  - rewrite load_existing_vectorstore_eq. cbv zeta. rewrite Hfail. by eexists.
Qed.

(** X3. On an engine with a QA chain, when the chain's invocation returns
    a text and source documents, [query] returns exactly that text as the
    answer and exactly those documents, in order, as the sources; the
    question was passed on verbatim, in one call, and the engine is
    unchanged. *)
Theorem query_returns_chain_result (question : string) (s : State W)
    (chain : RetrievalQA) (text : string) (docs : list Document) (w : W) :
  qa_chain (self s) = Some chain ->
  B _ (chain_invoke chain question) (world s) = (Returns (text, docs), w) ->
  query B question s
  = (Returns (mkResult text docs), after_call (chain_invoke chain question) w s).
Proof.
  intros Hready Hok. rewrite query_eq, Hready. cbv zeta. rewrite Hok. reflexivity.
Qed.

(** X4. After an ingest that returned, the engine holds a chain over the
    configured collection and directory, with the engine's embeddings and
    LLM and with retrieval depth 3, and every later [query] returns after
    exactly one call: the invocation of that chain on the question. *)
Theorem ingest_then_query (documents : list Document) (question : string)
    (s s1 : State W) (n : nat) :
  create_vectorstore B documents s = (Returns n, s1) ->
  let chain := new_chain (self s) (new_store (self s)) in
  qa_chain (self s1) = Some chain /\
  qa_llm chain = llm (self s) /\
  search_k (retriever chain) = 3 /\
  retriever_store (retriever chain)
  = mkChroma "document_qa" (embeddings (self s)) "./chroma_db" /\
  exists result s2,
    query B question s1 = (Returns result, s2) /\
    calls s2 = calls s1 ++ [logged (chain_invoke chain question)] /\
    self s2 = self s1.
Proof.
  intros Hrun chain.
  destruct (create_vectorstore_returns_inv B documents s s1 n Hrun) as [_ Hchain].
  split; [exact Hchain |]. repeat (split; [reflexivity |]).
  rewrite query_eq, Hchain. cbv zeta. answer B; by eexists _, _.
Qed.

(** X5. On an engine whose store and chain are set together and whose
    store, if it has one, does not count 0 chunks: once [clear_database] has
    returned [True] the engine has neither store nor chain, a [query] gets
    the "no documents" answer with no call made, and a second
    [clear_database] returns [True] with no call made. *)
Theorem cleared_engine_is_empty (question : string) (s s' : State W) :
  store_and_chain_agree (self s) ->
  (forall vs, vectorstore (self s) = Some vs ->
              fst (B nat (collection_count vs) (world s)) <> Returns 0) ->
  clear_database B s = (Returns true, s') ->
  vectorstore (self s') = None /\ qa_chain (self s') = None /\
  query B question s' = (Returns (mkResult no_documents_answer []), s') /\
  clear_database B s' = (Returns true, s').
Proof.
  intros Hagree Hfull. rewrite clear_database_eq.
  destruct (vectorstore (self s)) as [vs |] eqn:Hvs.
  - specialize (Hfull vs eq_refl). cbv zeta. cbv zeta in Hfull.
    destruct (B nat (collection_count vs) (world s)) as [[[| m] | x] w0];
      [done | | discriminate].
    answer B; cbv beta iota zeta; [| discriminate]. intros [= <-].
    split; [reflexivity |]. split; [reflexivity |].
    split; [rewrite query_eq | rewrite clear_database_eq]; reflexivity.
  - intros [= <-]. pose proof (proj1 Hagree Hvs) as Hqa.
    split; [exact Hvs |]. split; [exact Hqa |].
    split; [by rewrite query_eq, Hqa | by rewrite clear_database_eq, Hvs].
Qed.

End EngineMore.

Lemma store_failure_keeps_engine_witness :
  exists s',
    create_vectorstore (fake_backend embeddings_down) [doc1] ready
    = (Raises (mkExc (OtherException "ConnectError") "connection refused"), s') /\
    self s' = self ready.
Proof.
  destruct (store_failure_keeps_engine (fake_backend embeddings_down) [doc1] ready)
    as [Hcreate _].
  exact (Hcreate _ _ eq_refl).
Defined.

Lemma query_returns_chain_result_witness :
  qa_chain (self ready) = Some ready_chain /\
  query (fake_backend no_faults) "Where is Paris?" ready
  = (Returns (mkResult "stub answer" [doc1; doc2]),
     after_call (chain_invoke ready_chain "Where is Paris?") (world ready) ready).
Proof.
  split; [reflexivity |].
  apply (query_returns_chain_result (fake_backend no_faults) _ ready ready_chain);
    reflexivity.
Defined.

Lemma ingest_then_query_witness :
  create_vectorstore (fake_backend no_faults) [doc1; doc2] fresh = (Returns 2, ready) /\
  exists result s2,
    query (fake_backend no_faults) "Where is Paris?" ready = (Returns result, s2) /\
    calls s2 = calls ready ++ [logged (chain_invoke ready_chain "Where is Paris?")] /\
    self s2 = self ready.
Proof.
  split; [reflexivity |].
  apply (ingest_then_query (fake_backend no_faults) [doc1; doc2] "Where is Paris?"
           fresh ready 2 eq_refl).
Defined.

Lemma cleared_engine_is_empty_witness :
  let s' := snd (clear_database (fake_backend no_faults) ready) in
  store_and_chain_agree (self ready) /\
  fst (fake_backend no_faults nat (collection_count ready_store) (world ready)) = Returns 2 /\
  clear_database (fake_backend no_faults) ready = (Returns true, s') /\
  query (fake_backend no_faults) "Where is Paris?" s'
  = (Returns (mkResult no_documents_answer []), s').
Proof.
  intros s'. split; [done |]. split; [reflexivity |]. split; [reflexivity |].
  apply (cleared_engine_is_empty (fake_backend no_faults) "Where is Paris?" ready s');
    [done | by intros vs [= <-] | reflexivity].
Defined.

(** With the collection uncountable, [get_stats] raises, and
    [clear_database] reports [False] without attempting the deletion. *)
Example count_failure_reaches_the_caller :
  fst (get_stats (fake_backend count_fails) ready)
  = Raises (mkExc (OtherException "OperationalError") "database is locked") /\
  fst (clear_database (fake_backend count_fails) ready) = Returns false /\
  self (snd (clear_database (fake_backend count_fails) ready)) = self ready.
Proof. repeat split; reflexivity. Qed.

(** * Further properties of the loader *)

Section LoaderMore.
Context {W : Type} (B : Backend W).

Lemma load_document_supported_eq (file_path : string) (s : State W) (kind : LoaderKind) :
  loader_for (lower (splitext_ext file_path)) = Some kind ->
  load_document B file_path s =
    match B _ (loader_load kind file_path) (world s) with
    | (Returns docs, w) => (Returns docs, after_call (loader_load kind file_path) w s)
    | (Raises x, w) =>
        (Raises (mkExc PlainException
                   ("Error loading " +:+ file_path +:+ ": " +:+ exc_str x)),
         after_call (loader_load kind file_path) w s)
    end.
Proof.
  unfold loader_for, load_document. unfold_monad.
  repeat case_decide; intros [= <-];
    destruct (B _ (loader_load _ file_path) (world s)) as [[docs | x] w]; reflexivity.
Qed.

(** X7. A path whose lowercased extension is one of the four supported
    ones makes exactly one call, to the loader class of that extension
    (whatever the case of the extension in the path); the documents come
    back as loaded, and an exception [x] of the loader is raised again as
    a plain [Exception] with the text "Error loading <path>: <str(x)>". *)
Theorem load_document_dispatch (file_path : string) (s : State W) (kind : LoaderKind) :
  loader_for (lower (splitext_ext file_path)) = Some kind ->
  load_document B file_path s =
    match B _ (loader_load kind file_path) (world s) with
    | (Returns docs, w) => (Returns docs, after_call (loader_load kind file_path) w s)
    | (Raises x, w) =>
        (Raises (mkExc PlainException
                   ("Error loading " +:+ file_path +:+ ": " +:+ exc_str x)),
         after_call (loader_load kind file_path) w s)
    end.
Proof. apply load_document_supported_eq. Qed.

Lemma load_all_app (first second : list string) (all_docs : list Document) (s : State W) :
  load_all B (first ++ second) all_docs s =
    match load_all B first all_docs s with
    | (Returns docs, s1) => load_all B second docs s1
    | (Raises x, s1) => (Raises x, s1)
    end.
Proof.
  revert all_docs s. induction first as [| p first IH]; intros all_docs s; [reflexivity |].
  simpl. unfold mbind, M_bind.
  destruct (load_document B p s) as [[docs | x] s1]; [apply IH | reflexivity].
Qed.

Lemma load_all_accumulates (file_paths : list string) (all_docs : list Document)
    (s : State W) :
  load_all B file_paths all_docs s =
    match load_all B file_paths [] s with
    | (Returns docs, s1) => (Returns (all_docs ++ docs), s1)
    | (Raises x, s1) => (Raises x, s1)
    end.
Proof.
  revert all_docs s. induction file_paths as [| p rest IH]; intros all_docs s.
  - simpl. unfold mret, M_ret. by rewrite app_nil_r.
  - simpl. unfold mbind, M_bind.
    destruct (load_document B p s) as [[docs | x] s1]; [| reflexivity].
    rewrite (IH (all_docs ++ docs)), (IH ([] ++ docs)).
    destruct (load_all B rest [] s1) as [[more | x] s2]; [| reflexivity].
    by rewrite app_assoc.
Qed.

(** X8. [process_documents] stops at the first file that fails: when the
    files before it load and it raises [x], the whole call raises [x] in
    the state that failure left -- no later file is opened and the
    splitter is not called. *)
Theorem process_documents_stops_at_first_failure (good : list string) (bad : string)
    (rest : list string) (s s1 s2 : State W) (docs : list Document) (x : PyExc) :
  load_all B good [] s = (Returns docs, s1) ->
  load_document B bad s1 = (Raises x, s2) ->
  process_documents B (good ++ bad :: rest) s = (Raises x, s2).
Proof.
  intros Hgood Hbad. unfold process_documents. unfold mbind at 1. unfold M_bind.
  rewrite load_all_app, Hgood. simpl. unfold mbind, M_bind. by rewrite Hbad.
Qed.

(** X9. [process_documents] keeps the order of the files: when a first
    batch of paths loads to [docs1] and a second batch then loads to
    [docs2], the call on the two batches in a row hands the splitter
    [docs1] followed by [docs2], in one list, and returns what the splitter
    answers. *)
Theorem process_documents_keeps_file_order (first second : list string)
    (s s1 s2 : State W) (docs1 docs2 : list Document) :
  load_all B first [] s = (Returns docs1, s1) ->
  load_all B second [] s1 = (Returns docs2, s2) ->
  process_documents B (first ++ second) s = split_documents B (docs1 ++ docs2) s2.
Proof.
  intros Hfirst Hsecond. unfold process_documents. unfold mbind, M_bind.
  by rewrite load_all_app, Hfirst, load_all_accumulates, Hsecond.
Qed.

End LoaderMore.

Lemma load_document_unsupported_witness :
  ascii_text (splitext_ext "archive.tar.GZ") /\
  (lower (splitext_ext "archive.tar.GZ") ∉ config.SUPPORTED_EXTENSIONS) /\
  load_document (fake_backend no_faults) "archive.tar.GZ" fresh
  = (Raises (mkExc PlainException
               "Error loading archive.tar.GZ: Unsupported file type: .gz"), fresh).
Proof.
  assert (Hascii : ascii_text (splitext_ext "archive.tar.GZ")).
  { unfold ascii_text. simpl.
    repeat (apply List.Forall_cons; [vm_compute; lia |]). apply List.Forall_nil. }
  assert (Hext : lower (splitext_ext "archive.tar.GZ") ∉ config.SUPPORTED_EXTENSIONS).
  { intros Hin. repeat (apply elem_of_cons in Hin as [Hin | Hin]; [discriminate |]).
    by apply elem_of_nil in Hin. }
  split; [exact Hascii |]. split; [exact Hext |].
  exact (load_document_unsupported (fake_backend no_faults) "archive.tar.GZ" fresh
           Hascii Hext).
Defined.

Lemma load_document_dispatch_witness :
  loader_for (lower (splitext_ext "/data/Report.PDF")) = Some PyPDFLoader /\
  load_document (fake_backend no_faults) "/data/Report.PDF" fresh
  = (Returns [mkDocument "text of /data/Report.PDF" [("source", "/data/Report.PDF")]],
     after_call (loader_load PyPDFLoader "/data/Report.PDF") (world fresh) fresh).
Proof.
  split; [reflexivity |].
  exact (load_document_dispatch (fake_backend no_faults) "/data/Report.PDF" fresh
           PyPDFLoader eq_refl).
Defined.

Lemma process_documents_stops_at_first_failure_witness :
  let B := fake_backend no_faults in
  let s1 := snd (load_all B ["a.txt"] [] fresh) in
  process_documents B ["a.txt"; "b.exe"; "c.md"] fresh
  = (Raises (mkExc PlainException "Error loading b.exe: Unsupported file type: .exe"), s1).
Proof.
  intros B s1.
  exact (process_documents_stops_at_first_failure B ["a.txt"] "b.exe" ["c.md"]
           fresh s1 s1 _ _ eq_refl eq_refl).
Defined.

Lemma process_documents_keeps_file_order_witness :
  let B := fake_backend no_faults in
  fst (process_documents B ["a.txt"; "b.md"] fresh)
  = Returns [mkDocument "text of a.txt" [("source", "a.txt")];
             mkDocument "text of b.md" [("source", "b.md")]].
Proof.
  intros B. change ["a.txt"; "b.md"] with (["a.txt"] ++ ["b.md"]).
  rewrite (process_documents_keeps_file_order B ["a.txt"] ["b.md"] fresh
             (snd (load_all B ["a.txt"] [] fresh))
             (snd (load_all B ["b.md"] [] (snd (load_all B ["a.txt"] [] fresh))))
             _ _ eq_refl eq_refl).
  reflexivity.
Defined.

(** * Extensions of paths, continued *)

#[local] Arguments String.append !_ _ / : simpl nomatch.

Lemma append_assoc (a b c : string) : (a +:+ b) +:+ c = a +:+ (b +:+ c).
Proof. induction a as [| x a IH]; [reflexivity |]. simpl. by f_equal. Qed.

Lemma occurs_append (c : ascii) (a b : string) :
  occurs c (a +:+ b) = occurs c a || occurs c b.
Proof.
  induction a as [| x a IH]; [reflexivity |]. simpl. rewrite IH. by rewrite orb_assoc.
Qed.

Lemma after_last_None (c : ascii) (p : string) :
  after_last c p = None <-> occurs c p = false.
Proof.
  induction p as [| a p IH]; [done |]. simpl.
  destruct (after_last c p) as [t |].
  - split; [done |]. intros [_ Hp]%orb_false_elim. by apply IH in Hp.
  - rewrite (proj1 IH eq_refl), orb_false_r. by destruct (Ascii.eqb a c).
Qed.

Lemma after_last_Some (c : ascii) (p t : string) :
  after_last c p = Some t -> exists q, p = q +:+ String c t /\ occurs c t = false.
Proof.
  revert t. induction p as [| a p IH]; intros t; [done |]. simpl.
  destruct (after_last c p) as [t' |] eqn:Hlast.
  - intros [= <-]. destruct (IH t' eq_refl) as (q & -> & Hfree).
    by exists (String a q).
  - destruct (Ascii.eqb a c) eqn:Hac; [| done]. intros [= <-].
    apply Ascii.eqb_eq in Hac as ->. exists EmptyString.
    split; [reflexivity | by apply after_last_None].
Qed.

Lemma after_last_append_found (c : ascii) (a b t : string) :
  after_last c b = Some t -> after_last c (a +:+ b) = Some t.
Proof.
  intros Hb. induction a as [| x a IH]; [exact Hb |]. simpl. by rewrite IH.
Qed.

Lemma after_last_append_free (c : ascii) (a b : string) :
  occurs c b = false ->
  after_last c (a +:+ b) = (fun t => t +:+ b) <$> after_last c a.
Proof.
  intros Hb. induction a as [| x a IH]; [by apply after_last_None |].
  simpl. rewrite IH. destruct (after_last c a); [reflexivity |]. simpl.
  by destruct (Ascii.eqb x c).
Qed.

Lemma after_last_end (c : ascii) (a t : string) :
  occurs c t = false -> after_last c (a +:+ String c t) = Some t.
Proof.
  intros Ht. apply after_last_append_found. simpl.
  rewrite (proj2 (after_last_None c t) Ht). by rewrite Ascii.eqb_refl.
Qed.

Lemma skip_leading_dots_suffix (p : string) :
  exists dots, p = dots +:+ skip_leading_dots p.
Proof.
  induction p as [| a p IH]; [by exists EmptyString |].
  destruct (decide (a = "."%char)) as [-> | Hdot].
  - destruct IH as [dots Hp]. exists (String "."%char dots). simpl. by rewrite <- Hp.
  - exists EmptyString. simpl.
    destruct a as [[] [] [] [] [] [] [] []]; try reflexivity. by destruct Hdot.
Qed.

Lemma skip_leading_dots_append (a : string) (x : ascii) (r : string) :
  x <> "."%char ->
  skip_leading_dots (a +:+ String x r) = skip_leading_dots a +:+ String x r.
Proof.
  intros Hx. induction a as [| y a IH].
  - simpl. destruct x as [[] [] [] [] [] [] [] []]; try reflexivity. by destruct Hx.
  - destruct (decide (y = "."%char)) as [-> | Hy]; [exact IH |].
    simpl. destruct y as [[] [] [] [] [] [] [] []]; try reflexivity. by destruct Hy.
Qed.

(** The extension [os.path.splitext] finds is always the end of the
    path ([root + ext == path]), and it is either empty or a dot followed
    by text with no further dot and no slash. *)
Theorem splitext_ext_is_suffix (p : string) :
  exists root,
    p = root +:+ splitext_ext p /\
    (splitext_ext p = EmptyString \/
     exists t, splitext_ext p = String "."%char t /\
               occurs "."%char t = false /\ occurs "/"%char t = false).
Proof.
  unfold splitext_ext.
  assert (Hbase : exists dir, p = dir +:+ default p (after_last "/"%char p) /\
                              occurs "/"%char (default p (after_last "/"%char p)) = false).
  { destruct (after_last "/"%char p) as [b |] eqn:Hslash; simpl.
    - destruct (after_last_Some _ _ _ Hslash) as (q & -> & Hfree).
      exists (q +:+ String "/"%char EmptyString). split; [| exact Hfree].
      by rewrite append_assoc.
    - exists EmptyString. split; [reflexivity | by apply after_last_None]. }
  destruct Hbase as (dir & Hp & Hnoslash). cbv zeta.
  set (base := default p (after_last "/"%char p)) in *.
  destruct (skip_leading_dots_suffix base) as [dots Hdots].
  destruct (after_last "."%char (skip_leading_dots base)) as [t |] eqn:Hdot.
  - destruct (after_last_Some _ _ _ Hdot) as (q & Hq & Hfree).
    exists (dir +:+ dots +:+ q). split.
    + rewrite Hp at 1. rewrite Hdots at 1. rewrite Hq. by rewrite !append_assoc.
    + right. exists t. split; [reflexivity |]. split; [exact Hfree |].
      rewrite Hdots, Hq, !occurs_append in Hnoslash. simpl in Hnoslash.
      by repeat (apply orb_false_elim in Hnoslash as [_ Hnoslash]).
  - exists p. split; [| by left]. clear. induction p as [| a p IH]; [reflexivity |].
    simpl. by rewrite <- IH.
Qed.

(** A name built the way temporary files are named -- any prefix,
    then a non-empty stem with no dot and no slash, then a dot and a
    suffix with no dot and no slash -- has that dot and suffix as its
    extension. *)
Lemma splitext_ext_append_suffix (prefix stem suffix : string) :
  stem <> EmptyString ->
  occurs "."%char stem = false -> occurs "/"%char stem = false ->
  occurs "."%char suffix = false -> occurs "/"%char suffix = false ->
  splitext_ext (prefix +:+ stem +:+ String "."%char suffix) = String "."%char suffix.
Proof.
  intros Hstem Hdot Hslash Hsdot Hsslash. unfold splitext_ext.
  destruct stem as [| x stem]; [done |]. simpl in Hdot, Hslash.
  apply orb_false_elim in Hdot as [Hx Hdot].
  assert (Hxdot : x <> "."%char) by (intros ->; discriminate Hx).
  set (r := String x stem +:+ String "."%char suffix).
  assert (Hr : occurs "/"%char r = false).
  { unfold r. rewrite occurs_append. simpl in *. by rewrite Hslash, Hsslash. }
  assert (Hbase : default (prefix +:+ r) (after_last "/"%char (prefix +:+ r))
                  = default prefix (after_last "/"%char prefix) +:+ r).
  { rewrite (after_last_append_free _ _ _ Hr). by destruct (after_last "/"%char prefix). }
  rewrite Hbase. unfold r at 1. simpl.
  rewrite (skip_leading_dots_append _ x _ Hxdot).
  change (String x (stem +:+ String "."%char suffix))
    with (String x stem +:+ String "."%char suffix).
  rewrite <- append_assoc, (after_last_end _ _ _ Hsdot). reflexivity.
Qed.

Lemma supported_extension_shape (ext : string) :
  ext ∈ config.SUPPORTED_EXTENSIONS ->
  lower ext = ext /\
  exists suffix, ext = String "."%char suffix /\
                 occurs "."%char suffix = false /\ occurs "/"%char suffix = false.
Proof.
  intros Hin.
  repeat (apply elem_of_cons in Hin as [-> | Hin]; [split; [reflexivity | by eexists] |]).
  by apply elem_of_nil in Hin.
Qed.

(** X10. An upload that passes the API's extension check is never refused
    by the loader: for a file name whose lowercased extension [ext] is
    supported, [load_document] on a staged name -- prefix, dot-free stem,
    then [ext] -- calls the loader class of [ext] and raises no
    "Unsupported file type". *)
Theorem staged_upload_reaches_its_loader {W : Type} (B : Backend W)
    (file_name prefix stem : string) (s : State W) :
  let ext := lower (splitext_ext file_name) in
  let staged := prefix +:+ stem +:+ ext in
  ext ∈ config.SUPPORTED_EXTENSIONS ->
  stem <> EmptyString ->
  occurs "."%char stem = false -> occurs "/"%char stem = false ->
  exists kind,
    loader_for ext = Some kind /\
    load_document B staged s =
      match B _ (loader_load kind staged) (world s) with
      | (Returns docs, w) => (Returns docs, after_call (loader_load kind staged) w s)
      | (Raises x, w) =>
          (Raises (mkExc PlainException ("Error loading " +:+ staged +:+ ": " +:+ exc_str x)),
           after_call (loader_load kind staged) w s)
      end.
Proof.
  intros ext staged Hin Hstem Hdot Hslash.
  destruct (proj2 (loader_for_supported ext) Hin) as [kind Hkind].
  exists kind. split; [exact Hkind |]. apply load_document_supported_eq.
  destruct (supported_extension_shape ext Hin) as (Hlower & suffix & Hext & Hsdot & Hsslash).
  unfold staged. rewrite Hext at 1.
  rewrite (splitext_ext_append_suffix _ _ _ Hstem Hdot Hslash Hsdot Hsslash).
  by rewrite <- Hext, Hlower.
Qed.

Lemma staged_upload_reaches_its_loader_witness :
  exists kind,
    loader_for ".md" = Some kind /\
    fst (load_document (fake_backend no_faults) "/tmp/tmp7fq2.md" fresh)
    = Returns [mkDocument "text of /tmp/tmp7fq2.md" [("source", "/tmp/tmp7fq2.md")]].
Proof.
  destruct (staged_upload_reaches_its_loader (fake_backend no_faults)
              "Notes.MD" "/tmp/" "tmp7fq2" fresh) as (kind & Hkind & Hload).
  - by repeat constructor.
  - done.
  - reflexivity.
  - reflexivity.
  - exists kind. split; [exact Hkind |].
    etransitivity; [exact (f_equal fst Hload) |].
    vm_compute in Hkind. injection Hkind as <-. reflexivity.
Defined.

(** * Further properties of the API *)

(** Functions that stage and remove temporary files keep whatever the
    temporary-file calls and the two file fields do not disturb. *)
Section KeepingFiles.
Context {W : Type} (B : Backend W) (I : State W -> Prop).
Hypothesis I_after_file_call :
  forall (R : Type) (e : Ext R) (w : W) (s : State W),
    file_call (logged e) -> I s -> I (after_call e w s).
Hypothesis I_set_files : forall (f : gset string) (s : State W), I s -> I (set_files f s).
Hypothesis I_set_temp_files :
  forall (t : list string) (s : State W), I s -> I (set_temp_files t s).

Lemma keeps_file_call {R : Type} (e : Ext R) : file_call (logged e) -> keeps I (call B e).
Proof.
  intros He s Hs. unfold call. destruct (B R e (world s)) as [r w].
  by apply I_after_file_call.
Qed.

Lemma keeps_modify (f : State W -> State W) :
  (forall s, I s -> I (f s)) -> keeps I (modify f).
Proof. intros Hf s Hs. by apply Hf. Qed.

Lemma keeps_NamedTemporaryFile (suffix : string) :
  keeps I (tempfile_NamedTemporaryFile B suffix).
Proof.
  unfold tempfile_NamedTemporaryFile.
  apply keeps_bind; [by apply keeps_file_call |]. intros name.
  apply keeps_bind; [| intros _ s Hs; exact Hs].
  apply keeps_modify. intros s. apply I_set_files.
Qed.

Lemma keeps_unlink_quietly (path : string) : keeps I (unlink_quietly B path).
Proof.
  unfold unlink_quietly, unlink.
  apply keeps_try_except; [| intros x s Hs; exact Hs].
  apply keeps_bind; [by apply keeps_file_call |]. intros _.
  apply keeps_modify. intros s. apply I_set_files.
Qed.

Lemma keeps_cleanup_temp_files : keeps I (cleanup_temp_files B).
Proof.
  unfold cleanup_temp_files. apply keeps_get_then. intros s0.
  apply keeps_for_each. apply keeps_unlink_quietly.
Qed.

Lemma keeps_stage (suffix data : string) :
  keeps I (name ← tempfile_NamedTemporaryFile B suffix;
           call B (write_upload name data);; temp_files_append name).
Proof.
  apply keeps_bind; [apply keeps_NamedTemporaryFile |]. intros name.
  apply keeps_bind; [by apply keeps_file_call |]. intros _.
  apply keeps_modify. intros s. apply I_set_temp_files.
Qed.

Lemma keeps_api_stage (uploaded_file : UploadFile) : keeps I (api_stage B uploaded_file).
Proof.
  unfold api_stage. case_bool_decide; [apply keeps_stage | intros s Hs; exact Hs].
Qed.

Lemma keeps_app_stage (uploaded_file : UploadFile) : keeps I (app_stage B uploaded_file).
Proof. apply keeps_stage. Qed.

End KeepingFiles.

Section ApiMore.
Context {W : Type} (B : Backend W).

(** The cleanup loop returns, whatever unlinking answers. *)
Lemma cleanup_loop_returns (paths : list string) (s : State W) :
  exists s', for_each paths (unlink_quietly B) s = (Returns tt, s').
Proof.
  revert s. induction paths as [| path rest IH]; intros s; [by eexists |].
  simpl. unfold mbind, M_bind.
  assert (Hone : exists s1, unlink_quietly B path s = (Returns tt, s1)).
  { unfold unlink_quietly, unlink. unfold_monad.
    destruct (B unit (os_unlink path) (world s)) as [[[] | x] w]; by eexists. }
  destruct Hone as [s1 ->]. apply IH.
Qed.

Lemma cleanup_temp_files_returns (s : State W) :
  exists s', cleanup_temp_files B s = (Returns tt, s').
Proof. unfold cleanup_temp_files. unfold mbind, M_bind, get. apply cleanup_loop_returns. Qed.

Lemma only_file_calls_refl (s : State W) : only_file_calls s s.
Proof. split; [reflexivity |]. exists []. by rewrite app_nil_r. Qed.

Lemma only_file_calls_after_call (s0 : State W) (R : Type) (e : Ext R) (w : W)
    (s : State W) :
  file_call (logged e) -> only_file_calls s0 s -> only_file_calls s0 (after_call e w s).
Proof.
  intros He (Hself & new & Hcalls & Hnew). split; [exact Hself |].
  exists (new ++ [logged e]). simpl. rewrite Hcalls, app_assoc. split; [reflexivity |].
  apply Forall_app. split; [exact Hnew | by constructor].
Qed.

(** X12. Every exception that leaves the API's upload handler is an
    [HTTPException]: the ones the handler raises itself (400) and the ones
    raised inside as [HTTPException] pass unchanged, every other one is
    turned into a 500, and the cleanup in the [finally] block raises
    nothing. *)
Theorem upload_documents_raises_only_http (uploads : list UploadFile)
    (s s' : State W) (x : PyExc) :
  upload_documents B uploads s = (Raises x, s') ->
  exists status_code, exc_class x = HTTPException status_code.
Proof.
  unfold upload_documents. destruct uploads as [| u uploads].
  { intros [= <- _]. by eexists. }
  unfold mbind at 1. unfold M_bind, modify, try_finally.
  destruct (try_except _ _ (set_temp_files [] s)) as [[r | e] s1] eqn:Hbody;
    destruct (cleanup_temp_files_returns s1) as [s2 ->]; [discriminate |].
  intros [= <- _]. revert Hbody. unfold try_except.
  match goal with
  | |- context [match ?m (set_temp_files [] s) with _ => _ end] =>
      destruct (m (set_temp_files [] s)) as [[a | e0] s0]; [discriminate |]
  end.
  destruct (exc_class e0) eqn:Hclass; unfold raise; intros [= <- _]; simpl; eauto.
Qed.

(** X13. When the API's upload handler returns, its response counts at
    least one chunk and exactly the files uploaded, of which there is at
    least one, and the engine has a QA chain: an upload that yields no chunk
    is answered with a 400 before the engine is asked to ingest. *)
Theorem upload_documents_success_response (uploads : list UploadFile)
    (s s' : State W) (response : UploadResponse) :
  upload_documents B uploads s = (Returns response, s') ->
  message response = "Documents processed successfully" /\
  files_processed response = length uploads /\
  1 <= files_processed response /\
  1 <= total_chunks response /\
  is_Some (qa_chain (self s')).
Proof.
  unfold upload_documents. destruct uploads as [| u uploads]; [discriminate |].
  unfold mbind at 1. unfold M_bind, modify, try_finally, try_except.
  set (s0 := set_temp_files [] s).
  unfold mbind at 1. unfold M_bind.
  destruct (for_each (u :: uploads) (api_stage B) s0) as [[[] | e] s1].
  2:{ destruct (exc_class e); unfold raise;
        destruct (cleanup_temp_files_returns s1) as [s2 ->]; discriminate. }
  unfold mbind at 1. unfold M_bind, get.
  unfold mbind at 1. unfold M_bind.
  destruct (process_documents B (temp_files s1) s1) as [[chunks | e] s2].
  2:{ destruct (exc_class e); unfold raise;
        destruct (cleanup_temp_files_returns s2) as [s3 ->]; discriminate. }
  destruct chunks as [| chunk chunks].
  { unfold raise. simpl. destruct (cleanup_temp_files_returns s2) as [s3 ->]. discriminate. }
  unfold mbind at 1. unfold M_bind.
  destruct (create_vectorstore B (chunk :: chunks) s2) as [[n | e] s3] eqn:Hingest.
  2:{ destruct (exc_class e); unfold raise;
        destruct (cleanup_temp_files_returns s3) as [s4 ->]; discriminate. }
  unfold mret, M_ret.
  assert (Hkeep : self (snd (cleanup_temp_files B s3)) = self s3).
  { apply (keeps_cleanup_temp_files B (fun t => self t = self s3)); done. }
  destruct (cleanup_temp_files B s3) as [[[] | e] s4]; [| discriminate].
  intros [= <- <-]. simpl in *.
  destruct (create_vectorstore_returns_inv B _ s2 s3 n Hingest) as [Hn Hchain].
  rewrite Hkeep, Hchain, Hn. simpl. repeat split; try done; lia.
Qed.

End ApiMore.

Section ApiValidation.
Context {W : Type} (B : Backend W).

(** Staging a batch that contains an unsupported file raises, at that file
    or before it, having made only temporary-file calls. *)
Lemma staging_stops_at_unsupported (uploads : list UploadFile) (s0 s : State W) :
  (exists u, u ∈ uploads /\
             lower (splitext_ext (filename u)) ∉ config.SUPPORTED_EXTENSIONS) ->
  only_file_calls s0 s ->
  exists x s1, for_each uploads (api_stage B) s = (Raises x, s1) /\ only_file_calls s0 s1.
Proof.
  revert s. induction uploads as [| u uploads IH]; intros s (bad & Hin & Hbad) Hs.
  { by apply elem_of_nil in Hin. }
  simpl. unfold mbind, M_bind.
  pose proof (keeps_api_stage B (only_file_calls s0)
                (only_file_calls_after_call s0) (fun _ _ H => H) (fun _ _ H => H)
                u s Hs) as Hstage.
  destruct (api_stage B u s) as [[[] | x] s1] eqn:Hu; [| by eauto].
  apply IH; [| exact Hstage]. exists bad. split; [| exact Hbad].
  apply elem_of_cons in Hin as [-> | Hin]; [| exact Hin].
  exfalso. revert Hu. unfold api_stage. case_bool_decide; [done |]. discriminate.
Qed.

(** X14. A batch with an unsupported file never reaches the loader or the
    vector store: the API's upload handler raises an [HTTPException], the
    engine object is as before, and every call made was the creation, the
    writing or the unlinking of a temporary file. *)
Theorem upload_documents_rejects_unsupported (uploads : list UploadFile) (s : State W) :
  (exists u, u ∈ uploads /\
             lower (splitext_ext (filename u)) ∉ config.SUPPORTED_EXTENSIONS) ->
  exists x s',
    upload_documents B uploads s = (Raises x, s') /\
    (exists status_code, exc_class x = HTTPException status_code) /\
    only_file_calls s s'.
Proof.
  intros Hbad. unfold upload_documents. destruct uploads as [| u uploads].
  { destruct Hbad as (bad & Hin & _). by apply elem_of_nil in Hin. }
  unfold mbind at 1. unfold M_bind, modify, try_finally, try_except.
  unfold mbind at 1. unfold M_bind.
  destruct (staging_stops_at_unsupported (u :: uploads) s (set_temp_files [] s) Hbad)
    as (x & s1 & -> & Hs1); [apply (only_file_calls_refl s) |].
  pose proof (keeps_cleanup_temp_files B (only_file_calls s)
                (only_file_calls_after_call s) (fun _ _ H => H) s1 Hs1) as Hclean.
  destruct (exc_class x) eqn:Hclass; unfold raise;
    destruct (cleanup_temp_files_returns B s1) as [s2 Hs2]; rewrite Hs2 in *;
    eexists _, s2; (split; [reflexivity |]); simpl; eauto.
Qed.

End ApiValidation.

Lemma upload_documents_rejects_unsupported_witness :
  exists s',
    upload_documents (fake_backend no_faults) [a_txt; b_exe] fresh
    = (Raises (mkExc (HTTPException 400)
                 "Unsupported file type: .exe. Supported: ['.pdf', '.txt', '.docx', '.md']"),
       s') /\
    self s' = self fresh /\ files s' = ∅.
Proof.
  destruct (upload_documents_rejects_unsupported (fake_backend no_faults)
              [a_txt; b_exe] fresh) as (x & s' & Hrun & _ & Hself & _).
  - exists b_exe. split; [by repeat constructor |].
    intros Hin. repeat (apply elem_of_cons in Hin as [Hin | Hin]; [discriminate |]).
    by apply elem_of_nil in Hin.
  - exists s'. rewrite <- Hself.
    assert (Heval : upload_documents (fake_backend no_faults) [a_txt; b_exe] fresh
                    = (Raises x, s')) by exact Hrun.
    vm_compute in Heval. injection Heval as <- <-. repeat split; reflexivity.
Defined.

Lemma upload_documents_leaves_no_temp_file_witness :
  write_returns (fake_backend corrupt_files) /\
  unlink_returns (fake_backend corrupt_files) /\
  files (snd (upload_documents (fake_backend corrupt_files) [a_txt] fresh)) ⊆ files fresh.
Proof.
  assert (Hwrite : write_returns (fake_backend corrupt_files))
    by (intros path data w; exists w; reflexivity).
  assert (Hunlink : unlink_returns (fake_backend corrupt_files))
    by (intros path w; exists w; reflexivity).
  split; [exact Hwrite |]. split; [exact Hunlink |].
  exact (upload_documents_leaves_no_temp_file (fake_backend corrupt_files)
           [a_txt] fresh Hwrite Hunlink).
Defined.

Lemma upload_documents_raises_only_http_witness :
  exists s',
    upload_documents (fake_backend corrupt_files) [a_txt] fresh
    = (Raises (mkExc (HTTPException 500)
                 "Error processing documents: Error loading /tmp/tmp0.txt: EOF marker not found"),
       s') /\
    exists status_code, HTTPException 500 = HTTPException status_code.
Proof.
  eexists. split; [vm_compute; reflexivity |].
  exact (upload_documents_raises_only_http (fake_backend corrupt_files) [a_txt] fresh
           _ _ eq_refl).
Defined.

Lemma upload_documents_success_response_witness :
  exists s',
    upload_documents (fake_backend no_faults) [a_txt] fresh
    = (Returns (mkUploadResponse "Documents processed successfully" 1 1), s') /\
    is_Some (qa_chain (self s')).
Proof.
  eexists. split; [vm_compute; reflexivity |].
  eapply (upload_documents_success_response (fake_backend no_faults) [a_txt] fresh).
  reflexivity.
Defined.

(** ** The query, stats, clear and health endpoints *)

Lemma lstrip_chars_all_space (cs : list ascii) :
  Forall (fun c => is_space c = true) cs -> lstrip_chars cs = [].
Proof. induction 1 as [| c cs Hc _ IH]; [reflexivity |]. simpl. by rewrite Hc. Qed.

Lemma lstrip_chars_visible (cs : list ascii) :
  (exists c, c ∈ cs /\ is_space c = false) ->
  exists x rest, lstrip_chars cs = x :: rest /\ is_space x = false.
Proof.
  induction cs as [| a cs IH]; intros (c & Hin & Hc).
  { by apply elem_of_nil in Hin. }
  simpl. destruct (is_space a) eqn:Ha; [| by eauto].
  apply IH. exists c. split; [| exact Hc].
  apply elem_of_cons in Hin as [-> | Hin]; [congruence | exact Hin].
Qed.

Lemma strip_blank (question : string) :
  Forall (fun c => is_space c = true) (list_ascii_of_string question) ->
  strip question = EmptyString.
Proof. intros Hblank. unfold strip. by rewrite (lstrip_chars_all_space _ Hblank). Qed.

Lemma strip_visible (question : string) :
  (exists c, c ∈ list_ascii_of_string question /\ is_space c = false) ->
  str_is_empty question = false /\ str_is_empty (strip question) = false.
Proof.
  intros Hvisible. split.
  - destruct question; [| reflexivity].
    destruct Hvisible as (c & Hin & _). by apply elem_of_nil in Hin.
  - unfold strip.
    destruct (lstrip_chars_visible _ Hvisible) as (x & rest & -> & Hx).
    destruct (lstrip_chars_visible (rev (x :: rest))) as (y & rest' & -> & _).
    { exists x. split; [| exact Hx]. apply list_elem_of_In, in_rev.
      rewrite rev_involutive. by left. }
    destruct (rev (y :: rest')) as [| z zs] eqn:Hrev; [| reflexivity].
    apply (f_equal (@length ascii)) in Hrev. rewrite length_rev in Hrev. discriminate.
Qed.

Section EndpointsMore.
Context {W : Type} (B : Backend W).
Context (http_str : nat -> string -> string).
Context (llm_invoke : OllamaLLM -> string -> W -> Outcome string * W).

(** X15. A question that is empty or made of whitespace only is refused
    with a 400 before the engine is asked: no call is made and the state
    is unchanged. *)
Theorem query_documents_rejects_blank (question : string) (s : State W) :
  Forall (fun c => is_space c = true) (list_ascii_of_string question) ->
  query_documents B http_str question s
  = (Raises (mkExc (HTTPException 400) "Question cannot be empty"), s).
Proof.
  intros Hblank. unfold query_documents.
  by rewrite (strip_blank _ Hblank), orb_true_r.
Qed.

(** X16. A question with a visible ASCII character is always answered
    with a response, never with an error status: the response carries the
    answer of the engine's [query] and its sources, each as its content and
    metadata, in order.  In particular a failure of the chain reaches the
    client as an answer text, not as a 500. *)
Theorem query_documents_always_answers (question : string) (s : State W) :
  has_visible_ascii question ->
  exists result s',
    query B question s = (Returns result, s') /\
    query_documents B http_str question s
    = (Returns (mkQueryResponse (answer result)
                  (map (fun doc => mkSource (page_content doc) (metadata doc))
                       (sources result))), s').
Proof.
  intros (c & Hin & _ & Hc). unfold query_documents.
  destruct (strip_visible question) as [-> ->]; [by eauto |]. simpl.
  destruct (query_never_raises B question s) as (result & s' & Hquery).
  exists result, s'. split; [exact Hquery |].
  unfold try_except, mbind, M_bind. by rewrite Hquery.
Qed.

(** X17. The clear endpoint answers "Database cleared successfully"
    exactly when the engine's [clear_database] returned [True]; when it
    returned [False] the endpoint raises a 500 -- the [HTTPException] of its
    [else] branch is caught by its own handler and wrapped once more, so the
    detail is "Error clearing database: " followed by [str] of that
    exception. *)
Theorem api_clear_database_outcome (s : State W) :
  exists (cleared : bool) (s' : State W),
    clear_database B s = (Returns cleared, s') /\
    api_clear_database B http_str s =
      (if cleared then Returns "Database cleared successfully"
       else Raises (mkExc (HTTPException 500)
                      ("Error clearing database: "
                       +:+ http_str 500 "Failed to clear database")),
       s').
Proof.
  destruct (clear_database_never_raises B s) as (cleared & s' & Hrun).
  exists cleared, s'. split; [exact Hrun |].
  unfold api_clear_database, try_except, mbind, M_bind. rewrite Hrun.
  by destruct cleared.
Qed.

(** X18. The embedding model the stats endpoint names is the one the
    engine embeds with: after any sequence of engine operations on a newly
    built engine, whatever the backend answers, the two agree (the
    configuration's [EMBEDDING_MODEL] is not what is reported).  The
    endpoint has no handler of its own: it answers, with the count of
    [get_stats], when [get_stats] returns, and raises what [get_stats]
    raises -- the exception of the count made by the truth test of the
    store. *)
Theorem get_statistics_names_engine_model (ops : list Op) (w : W) :
  let s := run B ops (initial_state w) in
  match get_stats B s with
  | (Returns n, s') =>
      exists response,
        get_statistics B s = (Returns response, s') /\
        stats_total_chunks response = n /\
        stats_embedding_model response = emb_model (embeddings (self s)) /\
        stats_collection_name response = config.COLLECTION_NAME /\
        stats_ollama_model response = llm_model (llm RAGEngine_init)
  | (Raises x, s') =>
      get_statistics B s = (Raises x, s') /\
      exists vs w', vectorstore (self s) = Some vs /\
                    B nat (collection_count vs) (world s) = (Raises x, w')
  end.
Proof.
  intros s.
  destruct (run_one_model B (mkEmbeddings "nomic-embed-text" config.OLLAMA_BASE_URL)
              ops (initial_state w)) as [(Hemb & _) _].
  { split; [| constructor]. repeat split; done. }
  fold s in Hemb. unfold get_statistics, mbind, M_bind.
  destruct (get_stats B s) as [[n | x] s'] eqn:Hstats.
  - eexists. split; [reflexivity |]. simpl. by rewrite Hemb.
  - split; [reflexivity |]. rewrite get_stats_eq in Hstats.
    destruct (vectorstore (self s)) as [vs |]; [| discriminate].
    exists vs. cbv zeta in Hstats.
    destruct (B nat (collection_count vs) (world s)) as [[[| m] | x0] w0];
      [discriminate | | injection Hstats as <- _; by eexists].
    destruct (B nat (collection_count vs) w0) as [[n | x1] w1]; discriminate.
Qed.

(** X19. The health endpoint never raises and leaves the engine alone.
    It reports "healthy" with [ollama_connected] exactly when the model's
    test invocation returned, "degraded" otherwise, and [vectorstore_loaded]
    exactly when the engine holds a store. *)
Theorem health_check_outcome (s : State W) :
  exists response s',
    health_check llm_invoke s = (Returns response, s') /\
    self s' = self s /\ calls s' = calls s /\
    (ollama_connected response = true <->
       exists text w, llm_invoke (llm (self s)) "test" (world s) = (Returns text, w)) /\
    health_status response
    = (if ollama_connected response then "healthy" else "degraded") /\
    (vectorstore_loaded response = true <-> is_Some (vectorstore (self s))).
Proof.
  unfold health_check, llm_invoke_test. unfold_monad.
  destruct (llm_invoke (llm (self s)) "test" (world s)) as [[text | x] w]; simpl.
  - eexists _, _. split; [reflexivity |]. simpl.
    repeat (split; [reflexivity |]). split; [split; by eauto |].
    split; [reflexivity | apply bool_decide_eq_true].
  - eexists _, _. split; [reflexivity |]. simpl.
    repeat (split; [reflexivity |]).
    split; [split; [done | by intros (t & w' & Heq)] |].
    split; [reflexivity | apply bool_decide_eq_true].
Qed.

End EndpointsMore.

Lemma query_documents_rejects_blank_witness :
  Forall (fun c => is_space c = true) (list_ascii_of_string "   ") /\
  query_documents (fake_backend no_faults) status_and_detail "   " ready
  = (Raises (mkExc (HTTPException 400) "Question cannot be empty"), ready).
Proof.
  assert (Hblank : Forall (fun c => is_space c = true) (list_ascii_of_string "   "))
    by (by repeat constructor).
  split; [exact Hblank |].
  exact (query_documents_rejects_blank (fake_backend no_faults) status_and_detail
           "   " ready Hblank).
Defined.

Lemma query_documents_always_answers_witness :
  has_visible_ascii "Where is Paris?" /\
  fst (query_documents (fake_backend ollama_down) status_and_detail "Where is Paris?" ready)
  = Returns (mkQueryResponse "Error: connection refused" []).
Proof.
  assert (Hvisible : has_visible_ascii "Where is Paris?").
  { exists "W"%char. split; [by repeat constructor |].
    split; [change (87 < 128); lia | reflexivity]. }
  split; [exact Hvisible |].
  destruct (query_documents_always_answers (fake_backend ollama_down) status_and_detail
              "Where is Paris?" ready Hvisible) as (result & s' & Hquery & ->).
  vm_compute in Hquery. by injection Hquery as <- <-.
Defined.

(** * Further properties of the interactive UI *)

Section UiMore.
Context {W : Type} (B : Backend W).

(** What the "Process Documents" handler does, by cases. *)
Lemma process_documents_handler_cases (uploaded_files : list UploadFile) (s : State W) :
  exists s',
    process_documents_handler B uploaded_files s = (Returns tt, s') /\
    ((exists n, shown s' = shown s ++ [st_success (length uploaded_files) n] /\
                documents_loaded s' = true /\ is_Some (qa_chain (self s'))) \/
     (exists str_e, shown s' = shown s ++ [st_error str_e] /\
                    documents_loaded s' = documents_loaded s /\
                    (is_Some (qa_chain (self s)) -> is_Some (qa_chain (self s'))))).
Proof.
  set (I := fun t : State W =>
              shown t = shown s /\ documents_loaded t = documents_loaded s /\
              (is_Some (qa_chain (self s)) -> is_Some (qa_chain (self t)))).
  assert (Icall : forall R (e : Ext R) w t, I t -> I (after_call e w t)) by done.
  assert (Hfailed : forall e t, I t ->
            exists s', st_show (st_error (exc_str e)) t = (Returns tt, s') /\
              ((exists n, shown s' = shown s ++ [st_success (length uploaded_files) n] /\
                          documents_loaded s' = true /\ is_Some (qa_chain (self s'))) \/
               (exists str_e, shown s' = shown s ++ [st_error str_e] /\
                              documents_loaded s' = documents_loaded s /\
                              (is_Some (qa_chain (self s)) -> is_Some (qa_chain (self s')))))).
  { intros e t (Hshown & Hflag & Hchain). eexists. split; [reflexivity |]. right.
    exists (exc_str e). simpl. by rewrite Hshown. }
  unfold process_documents_handler, try_except.
  unfold mbind at 1. unfold M_bind, modify.
  set (s0 := set_temp_files [] s). assert (H0 : I s0) by done.
  unfold mbind at 1. unfold M_bind.
  pose proof (keeps_for_each I uploaded_files (app_stage B)
                (keeps_app_stage B I (fun R e w t _ => Icall R e w t)
                   (fun _ _ H => H) (fun _ _ H => H)) s0 H0) as H1.
  destruct (for_each uploaded_files (app_stage B) s0) as [[[] | e] s1];
    [| by apply Hfailed].
  simpl in H1. unfold mbind at 1. unfold M_bind, get.
  unfold mbind at 1. unfold M_bind.
  pose proof (keeps_process_documents B I Icall (temp_files s1) s1 H1) as H2.
  destruct (process_documents B (temp_files s1) s1) as [[chunks | e] s2];
    [| by apply Hfailed].
  simpl in H2. unfold mbind at 1. unfold M_bind.
  destruct (create_vectorstore B chunks s2) as [[n | e] s3] eqn:Hingest.
  - destruct (create_vectorstore_returns_inv B chunks s2 s3 n Hingest) as [_ Hchain].
    unfold mbind at 1. unfold M_bind.
    pose proof (keeps_cleanup_temp_files B (fun t => self t = self s3)
                  (fun _ _ _ _ _ H => H) (fun _ _ H => H) s3 eq_refl) as Hself.
    pose proof (keeps_cleanup_temp_files B (fun t => shown t = shown s3)
                  (fun _ _ _ _ _ H => H) (fun _ _ H => H) s3 eq_refl) as Hshown.
    destruct (cleanup_temp_files_returns B s3) as [s4 Hclean]. rewrite Hclean in *.
    simpl in Hself, Hshown. eexists. split; [reflexivity |]. left. exists n. simpl.
    rewrite Hshown, Hself, Hchain.
    assert (H3 : shown s3 = shown s).
    { pose proof (keeps_create_vectorstore B (fun t => shown t = shown s)
                    (fun _ _ _ _ H => H) (fun _ _ H => H) chunks s2 (proj1 H2)) as H.
      by rewrite Hingest in H. }
    by rewrite H3.
  - apply Hfailed. destruct H2 as (Hshown & Hflag & Hchain).
    pose proof (keeps_create_vectorstore B
                  (fun t => shown t = shown s /\ documents_loaded t = documents_loaded s)
                  (fun _ _ _ _ H => H) (fun _ _ H => H) chunks s2 (conj Hshown Hflag)) as H.
    rewrite Hingest in H. destruct H as [Hshown3 Hflag3].
    split; [exact Hshown3 |]. split; [exact Hflag3 |]. intros Hsome.
    specialize (Hchain Hsome). revert Hingest. rewrite create_vectorstore_eq. cbv zeta.
    answer B; cbv beta iota zeta; [| by intros [= _ <-]].
    answer B; cbv beta iota zeta; [discriminate | by intros [= _ <-]].
Qed.


(** X21. Every block of the UI script keeps the "loaded" flag honest: if
    the flag implies that the engine has a QA chain before the start-up
    load, the "Process Documents" handler, the database sidebar (with or
    without a press on "Clear Database") or the chat block, it does so
    after, whatever the backend answers. *)
Theorem ui_blocks_keep_flag_honest (s : State W) :
  ui_consistent s ->
  ui_consistent (snd (app_load_existing B s)) /\
  (forall uploaded_files,
      ui_consistent (snd (process_documents_handler B uploaded_files s))) /\
  (forall clear_pressed messages,
      ui_consistent (snd (sidebar_database B clear_pressed messages s))) /\
  (forall prompt messages, ui_consistent (snd (chat B prompt messages s))).
Proof.
  unfold ui_consistent. intros Hs. split; [| split; [| split]].
  - unfold app_load_existing, mbind, M_bind, get.
    destruct (documents_loaded s) eqn:Hflag; [intros _; by apply Hs |].
    rewrite load_existing_vectorstore_eq. cbv zeta.
    answer B; cbv beta iota zeta; [| intros Hl; simpl in Hl; congruence].
    answer B; cbv beta iota zeta; [| intros Hl; simpl in Hl; congruence].
    intros _. simpl. by eexists.
  - intros uploaded_files.
    destruct (process_documents_handler_cases uploaded_files s)
      as (s' & -> & [(n & _ & _ & Hchain) | (str_e & _ & Hflag & Hchain)]).
    + by intros _.
    + simpl. intros Hloaded. rewrite Hflag in Hloaded. by apply Hchain, Hs.
  - intros clear_pressed messages. unfold sidebar_database, mbind, M_bind, get.
    destruct (documents_loaded s) eqn:Hflag; [| intros Hl; simpl in Hl; congruence].
    destruct (get_stats_frame B s) as (Hself & Hflag1 & _).
    destruct (get_stats B s) as [[n | x] s1]; simpl in Hself, Hflag1;
      [| simpl; rewrite Hself; intros _; by apply Hs].
    destruct clear_pressed; [| simpl; rewrite Hself; intros _; by apply Hs].
    destruct (clear_database_frame B s1) as (cleared & s2 & -> & Hflag2 & Hkept).
    destruct cleared; [intros Hl; simpl in Hl; congruence |].
    simpl. rewrite (Hkept eq_refl), Hself. intros _. by apply Hs.
  - intros prompt messages. unfold chat, mbind, M_bind, get.
    destruct (documents_loaded s) eqn:Hflag; [| intros Hl; simpl in Hl; congruence].
    simpl. destruct (str_is_empty prompt); [intros _; by apply Hs |].
    rewrite query_eq. destruct (qa_chain (self s)) eqn:Hchain.
    + cbv zeta. answer B; intros _; simpl; rewrite Hchain; by eexists.
    + intros _. simpl. rewrite Hchain. by apply Hs.
Qed.

End UiMore.

(** X22. With the "loaded" flag set and honest, a chat turn on a non-empty
    prompt never raises and makes exactly one call, the invocation of the
    engine's chain on the prompt as typed; the transcript grows by exactly
    two messages, the user's prompt and then the assistant's answer, which
    is the answer shown. *)
Theorem chat_turn_extends_transcript {W : Type} (B : Backend W) (prompt : string)
    (messages : list ChatMessage) (s : State W) :
  ui_consistent s ->
  documents_loaded s = true ->
  prompt <> EmptyString ->
  exists chain view messages' s',
    qa_chain (self s) = Some chain /\
    chat B prompt messages s = (Returns (Some view, messages'), s') /\
    calls s' = calls s ++ [logged (chain_invoke chain prompt)] /\
    messages' = messages ++ [mkMessage "user" prompt;
                             mkMessage "assistant" (view_answer view)] /\
    length messages' = length messages + 2.
Proof.
  intros Hs Hflag Hprompt. destruct (Hs Hflag) as [chain Hchain].
  exists chain. unfold chat, mbind, M_bind, get. rewrite Hflag. simpl.
  destruct prompt as [| c prompt]; [done |]. simpl.
  rewrite query_eq, Hchain. cbv zeta.
  answer B; cbv beta iota zeta; eexists _, _, _;
    (split; [reflexivity |]); (split; [reflexivity |]); (split; [reflexivity |]);
    rewrite <- app_assoc; (split; [reflexivity |]);
    rewrite length_app; simpl; lia.
Qed.

Lemma chat_turn_extends_transcript_witness :
  ui_consistent (set_documents_loaded true ready) /\
  exists view s',
    chat (fake_backend ollama_down) "Where is Paris?" [] (set_documents_loaded true ready)
    = (Returns (Some view,
                [mkMessage "user" "Where is Paris?";
                 mkMessage "assistant" (view_answer view)]), s') /\
    view_answer view = "Error: connection refused".
Proof.
  assert (Hhonest : ui_consistent (set_documents_loaded true ready))
    by (intros _; by eexists).
  split; [exact Hhonest |].
  destruct (chat_turn_extends_transcript (fake_backend ollama_down) "Where is Paris?" []
              (set_documents_loaded true ready) Hhonest eq_refl)
    as (chain & view & messages' & s' & _ & Hchat & _ & -> & _); [done |].
  exists view, s'. split; [exact Hchat |].
  vm_compute in Hchat. by injection Hchat as <- _.
Defined.

Lemma ui_blocks_keep_flag_honest_witness :
  ui_consistent fresh /\
  ui_consistent (snd (app_load_existing (fake_backend chain_construction_fails) fresh)) /\
  ui_consistent (snd (process_documents_handler (fake_backend corrupt_files) [a_txt] fresh)).
Proof.
  assert (Hfresh : ui_consistent fresh) by (intros Hl; discriminate Hl).
  split; [exact Hfresh |]. split.
  - apply (ui_blocks_keep_flag_honest (fake_backend chain_construction_fails) fresh Hfresh).
  - apply (ui_blocks_keep_flag_honest (fake_backend corrupt_files) fresh Hfresh).
Defined.

(** ** The preview of a source *)

Example str_take_keeps_characters_whole :
  let e_acute := String "195"%char (String "169"%char EmptyString) in
  str_len (e_acute +:+ "t" +:+ e_acute) = 3 /\
  str_take 1 (e_acute +:+ "t" +:+ e_acute) = e_acute /\
  str_take 2 (e_acute +:+ "t" +:+ e_acute) = e_acute +:+ "t".
Proof. repeat split; reflexivity. Qed.

Lemma str_len_append (a b : string) : str_len (a +:+ b) = str_len a + str_len b.
Proof.
  induction a as [| c a IH]; [reflexivity |]. simpl.
  destruct (is_continuation c); by rewrite IH.
Qed.

Lemma str_take_prefix (n : nat) (s : string) :
  str_len (str_take n s) = Nat.min n (str_len s) /\
  exists rest, s = str_take n s +:+ rest.
Proof.
  revert n. induction s as [| c s IH]; intros n.
  - split; [by destruct n | by exists EmptyString].
  - simpl. destruct (is_continuation c) eqn:Hc.
    + destruct (IH n) as [Hlen [rest Hrest]]. simpl. rewrite Hc.
      split; [exact Hlen | exists rest; by rewrite <- Hrest].
    + destruct n as [| n]; [split; [reflexivity | by eexists] |].
      destruct (IH n) as [Hlen [rest Hrest]]. simpl. rewrite Hc.
      split; [by rewrite Hlen | exists rest; by rewrite <- Hrest].
Qed.

Lemma str_take_all (n : nat) (s : string) : str_len s <= n -> str_take n s = s.
Proof.
  revert n. induction s as [| c s IH]; intros n; [reflexivity |]. simpl.
  destruct (is_continuation c); [intros H; by rewrite IH |].
  destruct n as [| n]; [lia |]. intros H. rewrite IH; [reflexivity | lia].
Qed.

(** X23. The text shown for a source is the first 200 characters of the
    chunk -- the whole chunk when it has no more -- always followed by
    three dots: it has min(200, the chunk's number of characters) + 3
    characters, at most 203.  Characters are counted as Python counts them,
    a character of several bytes as one. *)
Theorem source_preview_bound (doc : Document) :
  str_len (source_preview doc) = Nat.min 200 (str_len (page_content doc)) + 3 /\
  str_len (source_preview doc) <= 203 /\
  (exists head rest, page_content doc = head +:+ rest /\
                     str_len head = Nat.min 200 (str_len (page_content doc)) /\
                     source_preview doc = head +:+ "...") /\
  (str_len (page_content doc) <= 200 ->
   source_preview doc = page_content doc +:+ "...").
Proof.
  unfold source_preview.
  destruct (str_take_prefix 200 (page_content doc)) as [Hlen [rest Hrest]].
  rewrite str_len_append, Hlen. change (str_len "...") with 3.
  split; [reflexivity |]. split; [lia |]. split; [by eexists _, rest |].
  intros Hshort. by rewrite str_take_all.
Qed.

(** The health endpoint and the query endpoint after a start-up load whose
    chain construction failed, with the model server down: the store is
    reported as loaded, the status is "degraded", and a question is answered
    with the "no documents" text. *)
Example health_after_failed_load :
  let s := snd (load_existing_vectorstore (fake_backend chain_construction_fails) fresh) in
  fst (health_check llm_down s) = Returns (mkHealthResponse "degraded" false true) /\
  fst (health_check llm_up s) = Returns (mkHealthResponse "healthy" true true) /\
  fst (query_documents (fake_backend chain_construction_fails) status_and_detail
         "Where is Paris?" s)
  = Returns (mkQueryResponse no_documents_answer []).
Proof. repeat split; reflexivity. Qed.
